(** * Mission 7 abstract (scripts/mission7.py): a shallow embedding

    The script is a ROS node: it reads two subscription feeds (the roombas and
    the drone's odometry), drives an actionlib client (send_goal, cancel_goal,
    get_state, wait_for_result) and reads the ROS clock.  The pure helpers
    (roomba_distance, find_roomba_by_id, target_roomba_law) are embedded as
    functions over IEEE binary64 floats; the methods of [Mission7] are embedded
    in a small monad over a [World] that keeps the client's log, the attribute
    [_search_state] and the position in the feeds. *)

From Stdlib Require Import ZArith Floats List String Lia Bool Sorted.
Import ListNotations.

(** ** Python values and exceptions *)

Module Py.

Inductive exn : Type :=
| IndexError
| OverflowError
| ValueError
| AttributeError.

Inductive result (A : Type) : Type :=
| Ok (a : A)
| Raise (e : exn).
Arguments Ok {A} a.
Arguments Raise {A} e.

Definition bind {A B} (r : result A) (k : A -> result B) : result B :=
  match r with
  | Ok a => k a
  | Raise e => Raise e
  end.

(** [[f(x) for x in l]]: the elements are evaluated left to right and the
    first exception aborts the comprehension. *)
Fixpoint comprehension {A B} (f : A -> result B) (l : list A) : result (list B) :=
  match l with
  | [] => Ok []
  | x :: l' =>
      bind (f x) (fun y => bind (comprehension f l') (fun ys => Ok (y :: ys)))
  end.

(** [l[i]] for a Python or numpy sequence: negative indices count from the
    end, anything out of range raises IndexError. *)
Definition index {A} (l : list A) (i : Z) : result A :=
  let n := Z.of_nat (List.length l) in
  let j := (if i <? 0 then i + n else i)%Z in
  if ((0 <=? j) && (j <? n))%Z
  then match nth_error l (Z.to_nat j) with
       | Some a => Ok a
       | None => Raise IndexError
       end
  else Raise IndexError.

Definition is_finite (x : float) : bool :=
  negb (PrimFloat.is_nan x) && negb (PrimFloat.is_infinity x).

(** [x ** 2] on a float is CPython's float_pow: the C library's pow, and an
    OverflowError when a finite base gives an infinite result.  The library's
    pow(x, 2.0) is taken to be the correctly rounded square. *)
Definition pow2 (x : float) : result float :=
  let r := PrimFloat.mul x x in
  if is_finite x && PrimFloat.is_infinity r then Raise OverflowError else Ok r.

(** [math.sqrt]: ValueError on a negative argument. *)
Definition math_sqrt (x : float) : result float :=
  if PrimFloat.ltb x 0%float then Raise ValueError else Ok (PrimFloat.sqrt x).

(** Stable insertion of [x], the newest element, into a sorted prefix: it goes
    in front of the first element it is smaller than.  [sorted] uses only [<],
    as Python's list sort does; for an order that is consistent every stable
    sort returns this list. *)
Section Sorted.

Context {A : Type} (lt : A -> A -> bool).

Fixpoint insort (x : A) (l : list A) : list A :=
  match l with
  | [] => [x]
  | y :: l' => if lt x y then x :: y :: l' else y :: insort x l'
  end.

Definition sorted (l : list A) : list A :=
  fold_left (fun acc x => insort x acc) l [].

End Sorted.

End Py.

Import Py.

(** ** Messages *)

(** nav_msgs/Odometry, with the fields the script reads.  [py_id] is the
    identity of the message object, its address: the message classes define
    [__eq__] and no ordering, and Python 2, which rospy runs on here, orders
    two instances of such a class by their addresses. *)
Record Odometry : Type := {
  py_id : Z;
  child_frame_id : string;
  position_x : float;
  position_y : float
}.

(** iarc7_motion/QuadMoveGoal.  A field that the constructor call does not
    name keeps the message default (0.0 or the empty string). *)
Record QuadMoveGoal : Type := {
  movement_type : string;
  frame_id : string;
  x_position : float;
  y_position : float;
  z_position : float;
  x_overshoot : float;
  y_overshoot : float;
  time_to_track : float
}.

Definition QuadMoveGoal_default (kind : string) : QuadMoveGoal :=
  {| movement_type := kind; frame_id := EmptyString;
     x_position := 0; y_position := 0; z_position := 0;
     x_overshoot := 0; y_overshoot := 0; time_to_track := 0 |}.

(** actionlib_msgs/GoalStatus *)
Inductive GoalStatus : Type :=
| PENDING | ACTIVE | PREEMPTED | SUCCEEDED | ABORTED
| REJECTED | PREEMPTING | RECALLING | RECALLED | LOST.

(** ** Constants of the script *)

Definition TRANSLATION_HEIGHT : float := 1.5.
Definition MIN_GOTO_DISTANCE : float := 0.5.
Definition TARGET_NUM_ROOMBAS : Z := 2.

(** In seconds; the clock of [Ros] counts nanoseconds. *)
Definition MAX_FLIGHT_DURATION : Z := 1 * 60.

Definition SEARCH_POINTS : list (float * float) :=
  [ ( 0.0,  0.0);
    ( 0.0,  7.5);
    (-7.5,  7.5);
    (-7.5, -7.5);
    ( 0.0, -7.5);
    ( 7.5,  0.0) ]%float.

(** ** Pure helpers *)

Definition roomba_distance (roomba_odom drone_odom : Odometry) : result float :=
  let x_diff := PrimFloat.sub (position_x drone_odom) (position_x roomba_odom) in
  let y_diff := PrimFloat.sub (position_y drone_odom) (position_y roomba_odom) in
  bind (pow2 x_diff) (fun xx =>
  bind (pow2 y_diff) (fun yy =>
  math_sqrt (PrimFloat.add xx yy))).

(** [==] on two messages: the same object, or, by the message class's
    [__eq__], equal field by field (here, on the fields the record keeps). *)
Definition Odometry_eq (a b : Odometry) : bool :=
  (py_id a =? py_id b)%Z
  || (String.eqb (child_frame_id a) (child_frame_id b)
      && PrimFloat.eqb (position_x a) (position_x b)
      && PrimFloat.eqb (position_y a) (position_y b)).

(** [<] on two messages: the class defines none, so the addresses decide. *)
Definition Odometry_lt (a b : Odometry) : bool := (py_id a <? py_id b)%Z.

(** [<] on the tuples [(distance, roomba)]: the first components that differ
    under [==] are compared with [<]. *)
Definition tuple_lt (p q : float * Odometry) : bool :=
  if PrimFloat.eqb (fst p) (fst q)
  then if Odometry_eq (snd p) (snd q) then false
       else Odometry_lt (snd p) (snd q)
  else PrimFloat.ltb (fst p) (fst q).

Definition target_roomba_law (roombas : list Odometry) (odom : Odometry)
  : result Odometry :=
  bind (comprehension
          (fun r => bind (roomba_distance r odom) (fun d => Ok (d, r)))
          roombas) (fun keyed =>
  let sorted_roombas := sorted tuple_lt keyed in
  bind (index sorted_roombas 0) (fun first => Ok (snd first))).

Definition find_roomba_by_id (roombas : list Odometry) (desired_id : string)
  : option Odometry :=
  let roomba_list :=
    filter (fun x => String.eqb (child_frame_id x) desired_id) roombas in
  if (Z.of_nat (List.length roomba_list) =? 0)%Z then None
  else match roomba_list with
       | x :: _ => Some x
       | [] => None
       end.

Definition construct_xyz_goal (arena_to_map : float * float -> float * float)
    (arena_pos : float * float) (height : float) : QuadMoveGoal :=
  let map_pos := arena_to_map arena_pos in
  {| movement_type := "xyztranslate"; frame_id := EmptyString;
     x_position := fst map_pos; y_position := snd map_pos;
     z_position := height;
     x_overshoot := 0; y_overshoot := 0; time_to_track := 0 |}.

Definition construct_goto_roomba_goal (roomba : Odometry) : QuadMoveGoal :=
  {| movement_type := "xyztranslate"; frame_id := EmptyString;
     x_position := position_x roomba; y_position := position_y roomba;
     z_position := TRANSLATION_HEIGHT;
     x_overshoot := 0; y_overshoot := 0; time_to_track := 0 |}.

(** The two track_roomba goals of track_roomba_to_completion: the one sent
    from the decision names no duration, the one sent on arrival asks for
    100000.0. *)
Definition track_roomba_goal (roomba_id : string) (duration : float)
  : QuadMoveGoal :=
  {| movement_type := "track_roomba"; frame_id := roomba_id;
     x_position := 0; y_position := 0; z_position := 0;
     x_overshoot := 0.0; y_overshoot := 0.0; time_to_track := duration |}.

Definition status_failed (state : GoalStatus) : bool :=
  match state with
  | ABORTED | REJECTED | PREEMPTED | RECALLED => true
  | _ => false
  end.

Definition status_succeeded (state : GoalStatus) : bool :=
  match state with
  | SUCCEEDED => true
  | _ => false
  end.

(** ** The node's world *)

(** What the actionlib client was asked, in order; [get_state] carries the
    status the server answered. *)
Inductive ClientCall : Type :=
| send_goal (goal : QuadMoveGoal)
| cancel_goal
| get_state (state : GoalStatus)
| wait_for_result.

(** Everything the script receives from outside: the coordinate service of
    ArenaPositionEstimator, the status the action server answers to the n-th
    poll, and, after n blocking calls (rate.sleep, wait_for_result), the
    attributes last assigned by the subscription callbacks and the ROS clock in
    nanoseconds.  A feed that is [None] has not been assigned yet: reading the
    attribute raises AttributeError. *)
Record Ros : Type := {
  arena_to_map : float * float -> float * float;
  goal_status : nat -> GoalStatus;
  avail_roombas : nat -> option (list Odometry);
  drone_odom : nat -> option Odometry;
  clock : nat -> Z
}.

Record World : Type := {
  client_log : list ClientCall;
  polls : nat;
  ticks : nat;
  search_state : Z
}.

(** A method either returns, raises, or is still inside one of its
    [while True] loops when the fuel given to the model runs out. *)
Inductive outcome (A : Type) : Type :=
| Returned (a : A) (w : World)
| Raised (e : exn) (w : World)
| Running (w : World).
Arguments Returned {A} a w.
Arguments Raised {A} e w.
Arguments Running {A} w.

Definition M (A : Type) : Type := World -> outcome A.

Definition ret {A} (a : A) : M A := fun w => Returned a w.

Definition mbind {A B} (m : M A) (k : A -> M B) : M B :=
  fun w =>
    match m w with
    | Returned a w' => k a w'
    | Raised e w' => Raised e w'
    | Running w' => Running w'
    end.

Definition lift {A} (r : result A) : M A :=
  fun w => match r with Ok a => Returned a w | Raise e => Raised e w end.

Definition out_of_fuel {A} : M A := fun w => Running w.

Declare Scope script_scope.
Delimit Scope script_scope with script.
Notation "x <- m ;; k" := (mbind m (fun x => k))
  (at level 61, m at next level, right associativity) : script_scope.
Notation "m ;; k" := (mbind m (fun _ => k))
  (at level 61, right associativity) : script_scope.
Open Scope script_scope.

Definition log_call (c : ClientCall) (w : World) : World :=
  {| client_log := client_log w ++ [c]; polls := polls w;
     ticks := ticks w; search_state := search_state w |}.

Definition set_search_state (c : Z) (w : World) : World :=
  {| client_log := client_log w; polls := polls w;
     ticks := ticks w; search_state := c |}.

Definition next_tick (w : World) : World :=
  {| client_log := client_log w; polls := polls w;
     ticks := S (ticks w); search_state := search_state w |}.

Definition next_poll (w : World) : World :=
  {| client_log := client_log w; polls := S (polls w);
     ticks := ticks w; search_state := search_state w |}.

Section Script.

Variable ros : Ros.

(** *** The client and the node's attributes *)

Definition client_send_goal (goal : QuadMoveGoal) : M unit :=
  fun w => Returned tt (log_call (send_goal goal) w).

Definition client_cancel_goal : M unit :=
  fun w => Returned tt (log_call cancel_goal w).

Definition client_get_state : M GoalStatus :=
  fun w =>
    let s := goal_status ros (polls w) in
    Returned s (next_poll (log_call (get_state s) w)).

Definition client_wait_for_result : M unit :=
  fun w => Returned tt (next_tick (log_call wait_for_result w)).

(** [rate.sleep()] of a node that is not being shut down: it returns. *)
Definition rate_sleep : M unit := fun w => Returned tt (next_tick w).

Definition Time_now : M Z := fun w => Returned (clock ros (ticks w)) w.

Definition self_avail_roombas : M (list Odometry) :=
  fun w => match avail_roombas ros (ticks w) with
           | Some l => Returned l w
           | None => Raised AttributeError w
           end.

Definition self_odom : M Odometry :=
  fun w => match drone_odom ros (ticks w) with
           | Some o => Returned o w
           | None => Raised AttributeError w
           end.

Definition self_search_state : M Z := fun w => Returned (search_state w) w.

Definition assign_search_state (c : Z) : M unit :=
  fun w => Returned tt (set_search_state c w).

(** did_task_fail and did_task_succeed are always called without [state], so
    each call polls the client. *)
Definition did_task_fail : M bool :=
  state <- client_get_state ;; ret (status_failed state).

Definition did_task_succeed : M bool :=
  state <- client_get_state ;; ret (status_succeeded state).

Definition did_task_finish : M bool :=
  failed <- did_task_fail ;;
  if failed then ret true else did_task_succeed.

(** *** Methods of Mission7 *)

(** USE_PLANNER is the constant True: the goal is the planner's. *)
Definition begin_translate (arena_pos : float * float) : M unit :=
  client_send_goal
    (construct_xyz_goal (arena_to_map ros) arena_pos TRANSLATION_HEIGHT).

Definition basic_goal (goal : string) : M unit :=
  client_send_goal (QuadMoveGoal_default goal) ;;
  client_wait_for_result.

(** The three reads of [self._avail_roombas] in one pass (the test against
    None, the length, the argument of the law) are taken as one read: no
    message is delivered between them. *)
Fixpoint wait_for_roomba (fuel : nat) : M (bool * option Odometry) :=
  match fuel with
  | O => out_of_fuel
  | S fuel' =>
      failed <- did_task_fail ;;
      if failed then ret (false, None) else
      succeeded <- did_task_succeed ;;
      if succeeded then ret (true, None) else
      roombas <- self_avail_roombas ;;
      if (Z.of_nat (List.length roombas) >? 0)%Z then
        odom <- self_odom ;;
        target_roomba <- lift (target_roomba_law roombas odom) ;;
        ret (true, Some target_roomba)
      else
        rate_sleep ;; wait_for_roomba fuel'
  end.

Fixpoint search_loop (fuel : nat) : M Odometry :=
  match fuel with
  | O => out_of_fuel
  | S fuel' =>
      cursor <- self_search_state ;;
      arena_pos <- lift (index SEARCH_POINTS cursor) ;;
      begin_translate arena_pos ;;
      found <- wait_for_roomba fuel' ;;
      let (xyz_translate_ok, roomba) := found in
      if negb xyz_translate_ok then search_loop fuel'
      else match roomba with
           | None =>
               assign_search_state
                 (if (cursor + 1 <? Z.of_nat (List.length SEARCH_POINTS))%Z
                  then (cursor + 1)%Z else 1%Z) ;;
               search_loop fuel'
           | Some r => ret r
           end
  end.

Definition search_for_roomba (fuel : nat) : M Odometry :=
  cursor <- self_search_state ;;
  (if negb (cursor =? 0)%Z then assign_search_state 1 else ret tt) ;;
  roomba <- search_loop fuel ;;
  assign_search_state 1 ;;
  ret roomba.

(** The three [if track_state == ...] blocks of one pass of the tracking
    loop; each returns the value of [track_state] it leaves. *)
Definition decide_block (roomba_id : string) (roomba : Odometry) (d : float)
    (track_state : Z) : M Z :=
  if (track_state =? 0)%Z then
    if PrimFloat.leb MIN_GOTO_DISTANCE d then
      client_send_goal (construct_goto_roomba_goal roomba) ;; ret 1%Z
    else
      client_send_goal (track_roomba_goal roomba_id 0) ;; ret 2%Z
  else ret track_state.

Definition goto_block (roomba_id : string) (d : float) (track_state : Z) : M Z :=
  if (track_state =? 1)%Z then
    _ <- client_get_state ;;
    succeeded <- did_task_succeed ;;
    let track_state := if succeeded then 0%Z else track_state in
    failed <- did_task_fail ;;
    let track_state := if failed then 0%Z else track_state in
    if PrimFloat.ltb d MIN_GOTO_DISTANCE then
      client_cancel_goal ;;
      client_send_goal (track_roomba_goal roomba_id 100000.0) ;;
      ret 2%Z
    else ret track_state
  else ret track_state.

(** The yaw computed in the [else] branch is assigned to a local that is never
    read. *)
Definition tracking_block (track_state : Z) : M Z :=
  if (track_state =? 2)%Z then
    _ <- client_get_state ;;
    finished <- did_task_finish ;;
    if finished then ret 0%Z else ret track_state
  else ret track_state.

Fixpoint track_loop (fuel : nat) (roomba_id : string) (track_state : Z) : M bool :=
  match fuel with
  | O => out_of_fuel
  | S fuel' =>
      roombas <- self_avail_roombas ;;
      match find_roomba_by_id roombas roomba_id with
      | None => ret false
      | Some roomba =>
          odom <- self_odom ;;
          d <- lift (roomba_distance roomba odom) ;;
          track_state <- decide_block roomba_id roomba d track_state ;;
          track_state <- goto_block roomba_id d track_state ;;
          track_state <- tracking_block track_state ;;
          rate_sleep ;;
          track_loop fuel' roomba_id track_state
      end
  end.

Definition track_roomba_to_completion (fuel : nat) (roomba : Odometry) : M bool :=
  track_loop fuel (child_frame_id roomba) 0%Z.

(** Lines 254-261: the bookkeeping and the two exits of the mission loop.
    [None] is [break], [Some n] goes round again with [gotten_roombas = n]. *)
Definition after_tracking (flight_start_time : Z) (got_roomba : bool)
    (gotten_roombas : Z) : M (option Z) :=
  let gotten_roombas :=
    if got_roomba then (gotten_roombas + 1)%Z else gotten_roombas in
  if (gotten_roombas >? TARGET_NUM_ROOMBAS)%Z then ret None
  else
    now <- Time_now ;;
    if (now >? flight_start_time + MAX_FLIGHT_DURATION * 1000000000)%Z
    then ret None
    else ret (Some gotten_roombas).

Fixpoint mission_loop (fuel : nat) (flight_start_time : Z) (gotten_roombas : Z)
  : M unit :=
  match fuel with
  | O => out_of_fuel
  | S fuel' =>
      roomba <- search_for_roomba fuel' ;;
      got_roomba <- track_roomba_to_completion fuel' roomba ;;
      again <- after_tracking flight_start_time got_roomba gotten_roombas ;;
      match again with
      | None => ret tt
      | Some gotten_roombas => mission_loop fuel' flight_start_time gotten_roombas
      end
  end.

Definition attempt_mission7 (fuel : nat) : M unit :=
  flight_start_time <- Time_now ;;
  basic_goal "takeoff" ;;
  mission_loop fuel flight_start_time 0 ;;
  basic_goal "land".

End Script.

(** ** Observations on the client's log *)

Definition status_terminal (state : GoalStatus) : bool :=
  status_failed state || status_succeeded state.

(** The world after one poll of the client. *)
Definition polled (ros : Ros) (w : World) : World :=
  next_poll (log_call (get_state (goal_status ros (polls w))) w).

Definition sent_goals (log : list ClientCall) : list QuadMoveGoal :=
  flat_map (fun c => match c with send_goal g => [g] | _ => [] end) log.

Definition land_goals (log : list ClientCall) : nat :=
  List.length
    (filter (fun g => String.eqb (movement_type g) "land") (sent_goals log)).

(** The goal the search sends for the waypoint at a cursor. *)
Definition waypoint_goal (ros : Ros) (arena_pos : float * float) : QuadMoveGoal :=
  construct_xyz_goal (arena_to_map ros) arena_pos TRANSLATION_HEIGHT.

(** The cursor after a waypoint was reached with no roomba in sight. *)
Definition next_cursor (cursor : Z) : Z :=
  if (cursor + 1 <? Z.of_nat (List.length SEARCH_POINTS))%Z
  then (cursor + 1)%Z else 1%Z.

(** The waypoint at a cursor that is in range. *)
Definition waypoint (cursor : Z) : float * float :=
  nth (Z.to_nat cursor) SEARCH_POINTS (0, 0)%float.

(** The cursors of [n] successive waypoints reached with no roomba in sight. *)
Fixpoint sweep (n : nat) (cursor : Z) : list Z :=
  match n with
  | O => []
  | S n' => cursor :: sweep n' (next_cursor cursor)
  end.

Definition final_world {A} (o : outcome A) : World :=
  match o with
  | Returned _ w => w
  | Raised _ w => w
  | Running w => w
  end.

Definition is_running {A} (o : outcome A) : bool :=
  match o with
  | Running _ => true
  | _ => false
  end.

(** A method that leaves the number of land goals in the log as it was. *)
Definition adds_no_land {A} (m : M A) : Prop :=
  forall w,
    land_goals (client_log (final_world (m w))) = land_goals (client_log w).

(** The order of the sort keys, and the keys it is an order on. *)
Definition key_le (p q : float * Odometry) : Prop :=
  PrimFloat.leb (fst p) (fst q) = true.

Definition key_ok (p : float * Odometry) : Prop :=
  PrimFloat.is_nan (fst p) = false.

(** The same environment with another clock. *)
Definition with_clock (c : nat -> Z) (ros : Ros) : Ros :=
  {| arena_to_map := arena_to_map ros;
     goal_status := goal_status ros;
     avail_roombas := avail_roombas ros;
     drone_odom := drone_odom ros;
     clock := c |}.

(** The one-goal discipline, from the specification's words: a goal may be
    submitted only when no earlier goal can still be active, that is when none
    was submitted yet, or the last one was cancelled, waited for, or seen in a
    terminal status.  [active] says whether a goal may be active before
    [log]. *)
Fixpoint one_goal_at_a_time (active : bool) (log : list ClientCall) : bool :=
  match log with
  | [] => true
  | send_goal _ :: rest => negb active && one_goal_at_a_time true rest
  | cancel_goal :: rest => one_goal_at_a_time false rest
  | wait_for_result :: rest => one_goal_at_a_time false rest
  | get_state s :: rest =>
      one_goal_at_a_time (active && negb (status_terminal s)) rest
  end.

(** ** Scenarios *)

Module Scenario.

Definition world0 : World :=
  {| client_log := []; polls := 0; ticks := 0; search_state := 0 |}.

Definition drone : Odometry :=
  {| py_id := 4096; child_frame_id := "base_footprint";
     position_x := 0; position_y := 0 |}.

(** Two roombas one metre from the drone; the one listed first was allocated
    at the higher address. *)
Definition roomba_east : Odometry :=
  {| py_id := 8448; child_frame_id := "roomba0";
     position_x := 1; position_y := 0 |}.

Definition roomba_north : Odometry :=
  {| py_id := 8192; child_frame_id := "roomba1";
     position_x := 0; position_y := 1 |}.

Definition roomba_near : Odometry :=
  {| py_id := 8704; child_frame_id := "roomba2";
     position_x := 0.25; position_y := 0 |}.

Definition same_place (p : float * float) : float * float := p.

(** One roomba stays in sight a metre away, the goal stays active, and the
    loops run at their 30 Hz. *)
Definition following : Ros :=
  {| arena_to_map := same_place;
     goal_status := fun _ => ACTIVE;
     avail_roombas := fun _ => Some [roomba_east];
     drone_odom := fun _ => Some drone;
     clock := fun n => (Z.of_nat n * 33333333)%Z |}.

(** The roomba is in sight when the search starts and gone one pass later;
    40 s go by per blocking call. *)
Definition lost_late : Ros :=
  {| arena_to_map := same_place;
     goal_status := fun _ => ACTIVE;
     avail_roombas := fun n => Some (if (n <=? 1)%nat then [roomba_east] else []);
     drone_odom := fun _ => Some drone;
     clock := fun n => (Z.of_nat n * 40000000000)%Z |}.

(** Every translate succeeds and no roomba is ever seen. *)
Definition empty_arena : Ros :=
  {| arena_to_map := same_place;
     goal_status := fun _ => SUCCEEDED;
     avail_roombas := fun _ => Some [];
     drone_odom := fun _ => Some drone;
     clock := fun n => (Z.of_nat n * 33333333)%Z |}.

(** Nothing in sight and the translate still under way. *)
Definition waiting : Ros :=
  {| arena_to_map := same_place;
     goal_status := fun _ => ACTIVE;
     avail_roombas := fun _ => Some [];
     drone_odom := fun _ => Some drone;
     clock := fun n => (Z.of_nat n * 33333333)%Z |}.

(** The near roomba is in sight, 0.25 m away. *)
Definition arrived : Ros :=
  {| arena_to_map := same_place;
     goal_status := fun _ => ACTIVE;
     avail_roombas := fun _ => Some [roomba_near];
     drone_odom := fun _ => Some drone;
     clock := fun n => (Z.of_nat n * 33333333)%Z |}.

(** The roomba is lost one pass after it was found, and the check that
    follows falls exactly 60 s after the flight start. *)
Definition on_the_minute : Ros :=
  {| arena_to_map := same_place;
     goal_status := fun _ => ACTIVE;
     avail_roombas := fun n => Some (if (n <=? 1)%nat then [roomba_east] else []);
     drone_odom := fun _ => Some drone;
     clock := fun n => (Z.of_nat n * 30000000000)%Z |}.

End Scenario.

(** ** The tracking loop over any implementation of the distance *)

Section TrackingBy.

Variable ros : Ros.

(** What computes [d] on line 195.  The script's is roomba_distance; the C
    library's pow behind [** 2] is not pinned to the last bit, so the
    thresholds of the loop are stated for any function in its place. *)
Variable distance : Odometry -> Odometry -> result float.

Fixpoint track_loop_by (fuel : nat) (roomba_id : string) (track_state : Z)
  : M bool :=
  match fuel with
  | O => out_of_fuel
  | S fuel' =>
      roombas <- self_avail_roombas ros ;;
      match find_roomba_by_id roombas roomba_id with
      | None => ret false
      | Some roomba =>
          odom <- self_odom ros ;;
          d <- lift (distance roomba odom) ;;
          track_state <- decide_block roomba_id roomba d track_state ;;
          track_state <- goto_block ros roomba_id d track_state ;;
          track_state <- tracking_block ros track_state ;;
          rate_sleep ;;
          track_loop_by fuel' roomba_id track_state
      end
  end.

End TrackingBy.

(** ** Invariants and observations for the methods *)

(** The cursor indexes SEARCH_POINTS. *)
Definition cursor_in_range (w : World) : Prop :=
  (0 <= search_state w < Z.of_nat (List.length SEARCH_POINTS))%Z.

(** A method that leaves the cursor on a waypoint, however it ends. *)
Definition keeps_cursor {A} (m : M A) : Prop :=
  forall w, cursor_in_range w -> cursor_in_range (final_world (m w)).

(** A method that only appends to the client's log. *)
Definition extends_log {A} (m : M A) : Prop :=
  forall w, exists calls,
    client_log (final_world (m w)) = client_log w ++ calls.

(** A method that submits no goal. *)
Definition sends_nothing {A} (m : M A) : Prop :=
  forall w, sent_goals (client_log (final_world (m w))) = sent_goals (client_log w).

(** Client calls that are all polls of the goal's status. *)
Definition polls_only (calls : list ClientCall) : Prop :=
  Forall (fun c => match c with get_state _ => True | _ => False end) calls.

(** The tracked roomba is in every snapshot, at a distance that is defined. *)
Definition always_seen (ros : Ros) (roomba_id : string) : Prop :=
  forall n, exists roombas roomba odom d,
    avail_roombas ros n = Some roombas /\
    find_roomba_by_id roombas roomba_id = Some roomba /\
    drone_odom ros n = Some odom /\
    roomba_distance roomba odom = Ok d.

(** The same, and never nearer than MIN_GOTO_DISTANCE. *)
Definition always_seen_far (ros : Ros) (roomba_id : string) : Prop :=
  forall n, exists roombas roomba odom d,
    avail_roombas ros n = Some roombas /\
    find_roomba_by_id roombas roomba_id = Some roomba /\
    drone_odom ros n = Some odom /\
    roomba_distance roomba odom = Ok d /\
    PrimFloat.leb MIN_GOTO_DISTANCE d = true.

(** A binary64 value that is not below zero: a zero, a positive number,
    plus infinity, or NaN. *)
Definition SFnonneg (f : spec_float) : Prop :=
  match f with
  | S754_zero _ => True
  | S754_nan => True
  | S754_infinity s => s = false
  | S754_finite s _ _ => s = false
  end.

Module Scenario2.

(** A roomba whose position is not a number. *)
Definition roomba_nan : Odometry :=
  {| py_id := 9216; child_frame_id := "roomba3";
     position_x := PrimFloat.nan; position_y := 0 |}.

(** A roomba too far away for its distance to be squared. *)
Definition roomba_far : Odometry :=
  {| py_id := 9472; child_frame_id := "roomba4";
     position_x := 0x1p+600; position_y := 0 |}.

(** No message has arrived on the roombas topic. *)
Definition no_feed : Ros :=
  {| arena_to_map := Scenario.same_place;
     goal_status := fun _ => ACTIVE;
     avail_roombas := fun _ => None;
     drone_odom := fun _ => Some Scenario.drone;
     clock := fun n => (Z.of_nat n * 33333333)%Z |}.

(** Every translate is aborted although a roomba is in sight. *)
Definition aborting : Ros :=
  {| arena_to_map := Scenario.same_place;
     goal_status := fun _ => ABORTED;
     avail_roombas := fun _ => Some [Scenario.roomba_east];
     drone_odom := fun _ => Some Scenario.drone;
     clock := fun n => (Z.of_nat n * 33333333)%Z |}.

(** A roomba exactly MIN_GOTO_DISTANCE from the drone. *)
Definition roomba_edge : Odometry :=
  {| py_id := 9728; child_frame_id := "roomba5";
     position_x := 0.5; position_y := 0 |}.

Definition at_threshold : Ros :=
  {| arena_to_map := Scenario.same_place;
     goal_status := fun _ => ACTIVE;
     avail_roombas := fun _ => Some [roomba_edge];
     drone_odom := fun _ => Some Scenario.drone;
     clock := fun n => (Z.of_nat n * 33333333)%Z |}.

End Scenario2.

(** * Properties *)

(** ** Order facts on binary64 values, through their specification *)

Module FloatOrder.

Ltac cmp_cases :=
  repeat match goal with
  | |- context [Z.compare ?a ?b] => destruct (Z.compare_spec a b)
  | |- context [Pos.compare_cont Eq ?a ?b] =>
      change (Pos.compare_cont Eq a b) with (Pos.compare a b);
      destruct (Pos.compare_spec a b)
  end.

Ltac by_cases :=
  simpl; try tauto; try discriminate; try reflexivity;
  cmp_cases; simpl; try discriminate; try reflexivity; subst; try lia.

Definition SFnot_nan (f : spec_float) : Prop :=
  match f with S754_nan => False | _ => True end.

Lemma SFltb_false_SFleb f g :
  SFnot_nan f -> SFnot_nan g -> SFltb f g = false -> SFleb g f = true.
Proof.
  unfold SFltb, SFleb.
  destruct f as [[]|[]| |[] m1 e1], g as [[]|[]| |[] m2 e2]; by_cases.
Qed.

Lemma SFleb_trans f g h :
  SFleb f g = true -> SFleb g h = true -> SFleb f h = true.
Proof.
  unfold SFleb.
  destruct f as [[]|[]| |[] m1 e1], g as [[]|[]| |[] m2 e2],
           h as [[]|[]| |[] m3 e3]; by_cases.
Qed.

Lemma SFleb_SFltb_false f g : SFleb f g = true -> SFltb g f = false.
Proof.
  unfold SFltb, SFleb.
  destruct f as [[]|[]| |[] m1 e1], g as [[]|[]| |[] m2 e2]; by_cases.
Qed.

Lemma SFltb_SFleb f g : SFltb f g = true -> SFleb f g = true.
Proof. unfold SFltb, SFleb. now destruct (SFcompare f g) as [[]|]. Qed.

Lemma SFeqb_SFleb f g : SFeqb f g = true -> SFleb f g = true.
Proof. unfold SFeqb, SFleb. now destruct (SFcompare f g) as [[]|]. Qed.

Lemma is_nan_false_SF x : PrimFloat.is_nan x = false -> SFnot_nan (Prim2SF x).
Proof.
  unfold PrimFloat.is_nan. rewrite FloatAxioms.eqb_spec.
  now destruct (Prim2SF x).
Qed.

Lemma ltb_false_leb x y :
  PrimFloat.is_nan x = false -> PrimFloat.is_nan y = false ->
  PrimFloat.ltb x y = false -> PrimFloat.leb y x = true.
Proof.
  intros Hx Hy. rewrite FloatAxioms.ltb_spec, FloatAxioms.leb_spec.
  apply SFltb_false_SFleb; now apply is_nan_false_SF.
Qed.

Lemma leb_trans x y z :
  PrimFloat.leb x y = true -> PrimFloat.leb y z = true -> PrimFloat.leb x z = true.
Proof. rewrite !FloatAxioms.leb_spec. apply SFleb_trans. Qed.

Lemma leb_ltb_false x y : PrimFloat.leb x y = true -> PrimFloat.ltb y x = false.
Proof. rewrite FloatAxioms.leb_spec, FloatAxioms.ltb_spec. apply SFleb_SFltb_false. Qed.

Lemma ltb_leb x y : PrimFloat.ltb x y = true -> PrimFloat.leb x y = true.
Proof. rewrite FloatAxioms.leb_spec, FloatAxioms.ltb_spec. apply SFltb_SFleb. Qed.

Lemma eqb_leb x y : PrimFloat.eqb x y = true -> PrimFloat.leb x y = true.
Proof. rewrite FloatAxioms.leb_spec, FloatAxioms.eqb_spec. apply SFeqb_SFleb. Qed.

Lemma eqb_geb x y : PrimFloat.eqb x y = true -> PrimFloat.leb y x = true.
Proof.
  rewrite FloatAxioms.leb_spec, FloatAxioms.eqb_spec. unfold SFeqb, SFleb.
  destruct (Prim2SF x) as [[]|[]| |[] m1 e1], (Prim2SF y) as [[]|[]| |[] m2 e2];
    by_cases.
Qed.

Lemma leb_refl x : PrimFloat.is_nan x = false -> PrimFloat.leb x x = true.
Proof.
  intros H. apply ltb_false_leb; auto.
  unfold PrimFloat.is_nan in H. apply negb_false_iff in H.
  apply leb_ltb_false, eqb_leb, H.
Qed.

End FloatOrder.


(** ** find_roomba_by_id *)

Lemma filter_first_split {A} (f : A -> bool) (l : list A) (x : A) (rest : list A) :
  filter f l = x :: rest ->
  exists before after,
    l = before ++ x :: after /\ f x = true /\
    forall y, In y before -> f y = false.
Proof.
  induction l as [|a l IH]; simpl; [discriminate|].
  destruct (f a) eqn:Fa.
  - intros E. injection E as -> _.
    exists [], l. repeat split; auto. intros y [].
  - intros E. destruct (IH E) as (before & after & -> & Fx & Hb).
    exists (a :: before), after. repeat split; auto.
    intros y [<-|Hy]; auto.
Qed.

Lemma filter_nil_none {A} (f : A -> bool) (l : list A) :
  filter f l = [] -> forall y, In y l -> f y = false.
Proof.
  induction l as [|a l IH]; simpl; [intros _ y []|].
  destruct (f a) eqn:Fa; [discriminate|].
  intros E y [<-|Hy]; auto.
Qed.

(** C10: find_roomba_by_id returns the first element of the snapshot whose
    child_frame_id equals the desired identifier (every element in front of it
    has another identifier, so among several matches the earliest is
    returned), and returns None exactly when no element matches. *)
Theorem find_roomba_by_id_first (roombas : list Odometry) (desired_id : string) :
  match find_roomba_by_id roombas desired_id with
  | Some r =>
      exists before after,
        roombas = before ++ r :: after /\
        child_frame_id r = desired_id /\
        forall x, In x before -> child_frame_id x <> desired_id
  | None => forall x, In x roombas -> child_frame_id x <> desired_id
  end.
Proof.
  unfold find_roomba_by_id.
  destruct (filter _ roombas) as [|x rest] eqn:E; simpl.
  - intros y Hy. apply (filter_nil_none _ _ E) in Hy.
    now apply String.eqb_neq.
  - destruct (filter_first_split _ _ _ _ E) as (before & after & -> & Fx & Hb).
    exists before, after. repeat split; auto.
    + now apply String.eqb_eq.
    + intros y Hy. apply String.eqb_neq. auto.
Qed.

(** ** target_roomba_law *)

Lemma tuple_lt_key_le p q : tuple_lt p q = true -> key_le p q.
Proof.
  unfold tuple_lt, key_le.
  destruct (PrimFloat.eqb (fst p) (fst q)) eqn:E.
  - intros _. now apply FloatOrder.eqb_leb.
  - apply FloatOrder.ltb_leb.
Qed.

Lemma tuple_lt_false_key_le p q :
  key_ok p -> key_ok q -> tuple_lt p q = false -> key_le q p.
Proof.
  unfold tuple_lt, key_le, key_ok. intros Hp Hq.
  destruct (PrimFloat.eqb (fst p) (fst q)) eqn:E.
  - intros _. now apply FloatOrder.eqb_geb.
  - now apply FloatOrder.ltb_false_leb.
Qed.

Lemma insort_In {A} (lt : A -> A -> bool) x l y :
  In y (insort lt x l) <-> y = x \/ In y l.
Proof.
  induction l as [|a l IH]; simpl.
  - intuition.
  - destruct (lt x a); simpl; rewrite ?IH; intuition.
Qed.

Lemma sorted_In_acc {A} (lt : A -> A -> bool) l acc y :
  In y (fold_left (fun acc x => insort lt x acc) l acc) <-> In y l \/ In y acc.
Proof.
  revert acc. induction l as [|a l IH]; simpl; intros acc.
  - intuition.
  - rewrite IH, insort_In. intuition.
Qed.

Lemma sorted_In {A} (lt : A -> A -> bool) l y : In y (sorted lt l) <-> In y l.
Proof. unfold sorted. rewrite sorted_In_acc. simpl. intuition. Qed.

Lemma insort_key_sorted x l :
  key_ok x -> Forall key_ok l ->
  StronglySorted key_le l -> StronglySorted key_le (insort tuple_lt x l).
Proof.
  intros Hx Hl Hs. induction Hs as [|a l Hs IH Ha]; simpl.
  - constructor; constructor.
  - inversion Hl as [|? ? Hka Hkl]; subst.
    destruct (tuple_lt x a) eqn:E.
    + constructor; [now constructor|].
      apply tuple_lt_key_le in E. constructor; auto.
      eapply Forall_impl; [|exact Ha].
      intros b Hb. unfold key_le in *. eapply FloatOrder.leb_trans; eauto.
    + constructor; [auto|].
      apply Forall_forall. intros b Hb. apply insort_In in Hb.
      destruct Hb as [->|Hb].
      * now apply tuple_lt_false_key_le.
      * rewrite Forall_forall in Ha. auto.
Qed.

Lemma insort_key_ok x l :
  key_ok x -> Forall key_ok l -> Forall key_ok (insort tuple_lt x l).
Proof.
  intros Hx Hl. apply Forall_forall. intros y Hy.
  apply insort_In in Hy. destruct Hy as [->|Hy]; auto.
  rewrite Forall_forall in Hl. auto.
Qed.

Lemma sorted_key_sorted l :
  Forall key_ok l -> StronglySorted key_le (sorted tuple_lt l).
Proof.
  unfold sorted.
  assert (G : forall acc, Forall key_ok l -> Forall key_ok acc ->
             StronglySorted key_le acc ->
             StronglySorted key_le
               (fold_left (fun acc x => insort tuple_lt x acc) l acc)).
  { induction l as [|a l IH]; simpl; intros acc Hl Hacc Hs; auto.
    inversion Hl; subst.
    apply IH; auto using insort_key_ok, insort_key_sorted. }
  intros Hl. apply G; auto; constructor.
Qed.

Lemma comprehension_Ok_In {A B} (f : A -> result B) l ys :
  comprehension f l = Ok ys ->
  forall y, In y ys <-> exists x, In x l /\ f x = Ok y.
Proof.
  revert ys. induction l as [|a l IH]; simpl; intros ys.
  - intros E. injection E as <-. intros y. split; [intros []|intros (x & [] & _)].
  - destruct (f a) as [b|e] eqn:Fa; simpl; [|discriminate].
    destruct (comprehension f l) as [bs|e] eqn:Fl; simpl; [|discriminate].
    intros E. injection E as <-. intros y. simpl. rewrite (IH bs eq_refl).
    split.
    + intros [<-|(x & Hx & Fx)]; eauto.
    + intros (x & [<-|Hx] & Fx); [left; congruence|right; eauto].
Qed.

Lemma comprehension_total {A B} (f : A -> result B) l :
  (forall x, In x l -> exists y, f x = Ok y) ->
  exists ys, comprehension f l = Ok ys /\ List.length ys = List.length l.
Proof.
  induction l as [|a l IH]; simpl; intros H.
  - now exists [].
  - destruct (H a) as (b & ->); auto. simpl.
    destruct IH as (bs & -> & Hlen); auto. simpl.
    exists (b :: bs). simpl. auto.
Qed.

(** X1: the part of the nearest-target selection that holds on the code: on a
    snapshot that is not empty and whose distances are all defined, the law
    returns a member of the snapshot that no other member is nearer than. *)
Lemma target_roomba_law_nearest (roombas : list Odometry) (odom : Odometry) :
  roombas <> [] ->
  (forall r, In r roombas ->
     exists d, roomba_distance r odom = Ok d /\ PrimFloat.is_nan d = false) ->
  exists r d,
    target_roomba_law roombas odom = Ok r /\
    In r roombas /\ roomba_distance r odom = Ok d /\
    forall r' d', In r' roombas -> roomba_distance r' odom = Ok d' ->
                  PrimFloat.leb d d' = true.
Proof.
  intros Hne Hd. unfold target_roomba_law.
  set (f := fun r => bind (roomba_distance r odom) (fun d => Ok (d, r))).
  destruct (comprehension_total f roombas) as (keyed & E & Hlen).
  { intros r Hr. destruct (Hd r Hr) as (d & Hrd & _).
    exists (d, r). unfold f. now rewrite Hrd. }
  rewrite E. simpl.
  assert (Hin := comprehension_Ok_In f roombas keyed E).
  assert (Hok : Forall key_ok keyed).
  { apply Forall_forall. intros [d r] Hp. apply Hin in Hp.
    destruct Hp as (x & Hx & Fx). unfold f in Fx.
    destruct (Hd x Hx) as (dx & Hdx & Hnan). rewrite Hdx in Fx. simpl in Fx.
    injection Fx as <- <-. exact Hnan. }
  assert (Hs := sorted_key_sorted keyed Hok).
  destruct (sorted tuple_lt keyed) as [|[d r] rest] eqn:Es.
  - exfalso. destruct keyed as [|p keyed'].
    + destruct roombas; [now apply Hne|discriminate].
    + assert (Hp : In p (sorted tuple_lt (p :: keyed')))
        by (apply sorted_In; now left).
      rewrite Es in Hp. destruct Hp.
  - exists r, d. unfold index. simpl.
    assert (Hhd : In (d, r) keyed).
    { apply (sorted_In tuple_lt). rewrite Es. now left. }
    apply Hin in Hhd. destruct Hhd as (x & Hx & Fx). unfold f in Fx.
    destruct (roomba_distance x odom) as [dx|] eqn:Hdx; [|discriminate].
    simpl in Fx. injection Fx as -> ->.
    repeat split; auto.
    intros r' d' Hr' Hd'.
    assert (Hp : In (d', r') (sorted tuple_lt keyed)).
    { apply sorted_In, Hin. exists r'. split; auto. unfold f. now rewrite Hd'. }
    rewrite Es in Hp. inversion Hs as [|? ? _ Hall]; subst.
    destruct Hp as [Hp|Hp].
    + injection Hp as <- <-. apply FloatOrder.leb_refl.
      rewrite Forall_forall in Hok. apply (Hok (d, r)).
      apply (sorted_In tuple_lt). rewrite Es. now left.
    + rewrite Forall_forall in Hall. apply (Hall _ Hp).
Qed.

(** On a tie between two different messages the law follows the addresses,
    not the snapshot: of two roombas at the same distance it returns the
    second when that one has the lower address. *)
Lemma target_roomba_law_tie_by_address a b odom d :
  roomba_distance a odom = Ok d ->
  roomba_distance b odom = Ok d ->
  PrimFloat.is_nan d = false ->
  Odometry_eq b a = false ->
  (py_id b < py_id a)%Z ->
  target_roomba_law [a; b] odom = Ok b.
Proof.
  intros Ha Hb Hn Hne Hlt. unfold target_roomba_law.
  cbn [comprehension]. rewrite Ha, Hb. cbn [bind].
  unfold sorted. cbn [fold_left insort]. unfold tuple_lt. cbn [fst snd].
  unfold PrimFloat.is_nan in Hn. apply negb_false_iff in Hn.
  rewrite Hn, Hne. unfold Odometry_lt.
  apply Z.ltb_lt in Hlt. rewrite Hlt. reflexivity.
Qed.

(** C1: the nearest-target selection on a tie.  Two roombas are both one
    metre from the drone; the snapshot lists roomba_east first.  The sort
    compares the tuples (distance, roomba), so on equal distances it goes on to
    compare the two messages, and the law returns roomba_north, the second in
    snapshot order. *)
Theorem target_roomba_law_tie_returns_second :
  roomba_distance Scenario.roomba_east Scenario.drone = Ok 1%float /\
  roomba_distance Scenario.roomba_north Scenario.drone = Ok 1%float /\
  target_roomba_law [Scenario.roomba_east; Scenario.roomba_north] Scenario.drone
    = Ok Scenario.roomba_north.
Proof. repeat split; vm_compute; reflexivity. Qed.

(** On an empty snapshot the law has nothing to index. *)
Lemma target_roomba_law_empty_raises :
  target_roomba_law [] Scenario.drone = Raise IndexError.
Proof. reflexivity. Qed.

(** C7 (amended): when the target snapshot is empty, target_roomba_law
    raises IndexError, for every vehicle pose: it indexes the empty sorted
    list and has no no-target result. *)
Theorem target_roomba_law_empty_index_error (odom : Odometry) :
  target_roomba_law [] odom = Raise IndexError.
Proof.
  unfold target_roomba_law. cbn [comprehension bind].
  unfold sorted. cbn [fold_left]. reflexivity.
Qed.

(** ** track_roomba_to_completion *)

(** One pass of the tracking loop when the roomba is found. *)
Lemma track_loop_found ros fuel roomba_id track_state w roombas roomba odom d :
  avail_roombas ros (ticks w) = Some roombas ->
  find_roomba_by_id roombas roomba_id = Some roomba ->
  drone_odom ros (ticks w) = Some odom ->
  roomba_distance roomba odom = Ok d ->
  track_loop ros (S fuel) roomba_id track_state w =
    (st <- decide_block roomba_id roomba d track_state ;;
     st <- goto_block ros roomba_id d st ;;
     st <- tracking_block ros st ;;
     rate_sleep ;;
     track_loop ros fuel roomba_id st) w.
Proof.
  intros Ha Hf Ho Hd. cbn [track_loop].
  unfold mbind at 1, self_avail_roombas. rewrite Ha, Hf.
  unfold mbind at 1, self_odom. rewrite Ho.
  unfold mbind at 1, lift. rewrite Hd. reflexivity.
Qed.

(** C3: on any pass of the tracking loop, whatever the value of track_state,
    if the tracked identifier is absent from the current snapshot then
    track_roomba_to_completion returns False on that pass, with no call to the
    client. *)
Theorem track_loop_lost_returns_false ros fuel roomba_id track_state w roombas :
  avail_roombas ros (ticks w) = Some roombas ->
  find_roomba_by_id roombas roomba_id = None ->
  track_loop ros (S fuel) roomba_id track_state w = Returned false w.
Proof.
  intros Ha Hf. cbn [track_loop].
  unfold mbind, self_avail_roombas. rewrite Ha, Hf. reflexivity.
Qed.

Lemma track_loop_lost_returns_false_witness :
  track_loop Scenario.waiting 1 "roomba0" 1 Scenario.world0
    = Returned false Scenario.world0
  /\ track_loop Scenario.waiting 1 "roomba0" 2 Scenario.world0
    = Returned false Scenario.world0.
Proof.
  split;
    apply (track_loop_lost_returns_false Scenario.waiting 0 "roomba0" _
             Scenario.world0 []); reflexivity.
Defined.

(** The loop over the script's own distance is the tracking loop. *)
Lemma track_loop_by_roomba_distance ros fuel roomba_id track_state w :
  track_loop_by ros roomba_distance fuel roomba_id track_state w
    = track_loop ros fuel roomba_id track_state w.
Proof. reflexivity. Qed.

(** C2: in the tracking loop, on a pass where the roomba is found and the
    distance computed on that pass is d, with MIN_GOTO_DISTANCE = 0.5.  From
    the decision (track_state = 0): if d >= MIN_GOTO_DISTANCE, the goal
    submitted is an xyztranslate to the roomba's x and y at height 1.5 and the
    pass goes on as a going-to-roomba pass (track_state = 1); otherwise the
    goal submitted is a track_roomba on the tracked identifier with zero x and
    y overshoot and no duration, and the pass goes on in tracking
    (track_state = 2).  In going-to-roomba (track_state = 1): if
    d < MIN_GOTO_DISTANCE then, after the three polls of that block,
    cancel_goal is called, a track_roomba goal on the tracked identifier with
    zero overshoot and time_to_track = 100000.0 is submitted, and the pass goes
    on in tracking.  This holds whatever function computes the distance, in
    particular for roomba_distance, with which the loop is
    track_roomba_to_completion's. *)
Theorem track_loop_thresholds ros distance fuel roomba_id w roombas roomba odom d :
  avail_roombas ros (ticks w) = Some roombas ->
  find_roomba_by_id roombas roomba_id = Some roomba ->
  drone_odom ros (ticks w) = Some odom ->
  distance roomba odom = Ok d ->
  MIN_GOTO_DISTANCE = 0.5%float /\
  (PrimFloat.leb MIN_GOTO_DISTANCE d = true ->
   track_loop_by ros distance (S fuel) roomba_id 0 w =
     (st <- goto_block ros roomba_id d 1 ;;
      st <- tracking_block ros st ;;
      rate_sleep ;;
      track_loop_by ros distance fuel roomba_id st)
       (log_call
          (send_goal
             {| movement_type := "xyztranslate"; frame_id := "";
                x_position := position_x roomba;
                y_position := position_y roomba;
                z_position := 1.5;
                x_overshoot := 0; y_overshoot := 0; time_to_track := 0 |})
          w)) /\
  (PrimFloat.leb MIN_GOTO_DISTANCE d = false ->
   track_loop_by ros distance (S fuel) roomba_id 0 w =
     (st <- tracking_block ros 2 ;;
      rate_sleep ;;
      track_loop_by ros distance fuel roomba_id st)
       (log_call
          (send_goal
             {| movement_type := "track_roomba"; frame_id := roomba_id;
                x_position := 0; y_position := 0; z_position := 0;
                x_overshoot := 0; y_overshoot := 0; time_to_track := 0 |})
          w)) /\
  (PrimFloat.ltb d MIN_GOTO_DISTANCE = true ->
   track_loop_by ros distance (S fuel) roomba_id 1 w =
     (st <- tracking_block ros 2 ;;
      rate_sleep ;;
      track_loop_by ros distance fuel roomba_id st)
       (log_call
          (send_goal
             {| movement_type := "track_roomba"; frame_id := roomba_id;
                x_position := 0; y_position := 0; z_position := 0;
                x_overshoot := 0; y_overshoot := 0;
                time_to_track := 100000 |})
          (log_call cancel_goal (polled ros (polled ros (polled ros w)))))) /\
  (forall fuel' st w',
     track_loop_by ros roomba_distance fuel' roomba_id st w'
       = track_loop ros fuel' roomba_id st w').
Proof.
  intros Ha Hf Ho Hd.
  assert (Hpass : forall st,
    track_loop_by ros distance (S fuel) roomba_id st w =
      (st <- decide_block roomba_id roomba d st ;;
       st <- goto_block ros roomba_id d st ;;
       st <- tracking_block ros st ;;
       rate_sleep ;;
       track_loop_by ros distance fuel roomba_id st) w).
  { intros st. cbn [track_loop_by].
    unfold mbind at 1, self_avail_roombas. rewrite Ha, Hf.
    unfold mbind at 1, self_odom. rewrite Ho.
    unfold mbind at 1, lift. rewrite Hd. reflexivity. }
  split; [reflexivity|]. split; [|split; [|split]].
  - intros Hcmp. rewrite Hpass. unfold mbind at 1, decide_block.
    change (0 =? 0)%Z with true. cbv iota. rewrite Hcmp. reflexivity.
  - intros Hcmp. rewrite Hpass. unfold mbind at 1, decide_block.
    change (0 =? 0)%Z with true. cbv iota. rewrite Hcmp. reflexivity.
  - intros Hcmp. rewrite Hpass. unfold mbind at 1, decide_block.
    change (1 =? 0)%Z with false. cbv iota. unfold ret at 1.
    unfold mbind at 1, goto_block.
    change (1 =? 1)%Z with true. cbv iota. rewrite Hcmp.
    unfold mbind, did_task_succeed, did_task_fail, client_get_state, mbind,
      ret, client_cancel_goal, client_send_goal, polled.
    cbn [polls next_poll log_call].
    reflexivity.
  - intros fuel' st w'. apply track_loop_by_roomba_distance.
Qed.

Lemma track_loop_thresholds_witness :
  (* one metre away: translate to the roomba *)
  track_loop Scenario.following 1 "roomba0" 0 Scenario.world0 =
    (st <- goto_block Scenario.following "roomba0" 1 1 ;;
     st <- tracking_block Scenario.following st ;;
     rate_sleep ;;
     track_loop_by Scenario.following roomba_distance 0 "roomba0" st)
      (log_call
         (send_goal
            {| movement_type := "xyztranslate"; frame_id := "";
               x_position := 1; y_position := 0; z_position := 1.5;
               x_overshoot := 0; y_overshoot := 0; time_to_track := 0 |})
         Scenario.world0)
  (* exactly 0.5 m away: still a translate *)
  /\ track_loop Scenario2.at_threshold 1 "roomba5" 0 Scenario.world0 =
    (st <- goto_block Scenario2.at_threshold "roomba5" 0.5 1 ;;
     st <- tracking_block Scenario2.at_threshold st ;;
     rate_sleep ;;
     track_loop_by Scenario2.at_threshold roomba_distance 0 "roomba5" st)
      (log_call
         (send_goal
            {| movement_type := "xyztranslate"; frame_id := "";
               x_position := 0.5; y_position := 0; z_position := 1.5;
               x_overshoot := 0; y_overshoot := 0; time_to_track := 0 |})
         Scenario.world0)
  (* 0.25 m away at the decision: track *)
  /\ track_loop Scenario.arrived 1 "roomba2" 0 Scenario.world0 =
    (st <- tracking_block Scenario.arrived 2 ;;
     rate_sleep ;;
     track_loop_by Scenario.arrived roomba_distance 0 "roomba2" st)
      (log_call
         (send_goal
            {| movement_type := "track_roomba"; frame_id := "roomba2";
               x_position := 0; y_position := 0; z_position := 0;
               x_overshoot := 0; y_overshoot := 0; time_to_track := 0 |})
         Scenario.world0)
  (* 0.25 m away while going to the roomba: cancel, then track *)
  /\ track_loop Scenario.arrived 1 "roomba2" 1 Scenario.world0 =
    (st <- tracking_block Scenario.arrived 2 ;;
     rate_sleep ;;
     track_loop_by Scenario.arrived roomba_distance 0 "roomba2" st)
      (log_call
         (send_goal
            {| movement_type := "track_roomba"; frame_id := "roomba2";
               x_position := 0; y_position := 0; z_position := 0;
               x_overshoot := 0; y_overshoot := 0;
               time_to_track := 100000 |})
         (log_call cancel_goal
            (polled Scenario.arrived
               (polled Scenario.arrived
                  (polled Scenario.arrived Scenario.world0))))).
Proof.
  pose proof (track_loop_thresholds Scenario.following roomba_distance 0
                "roomba0" Scenario.world0 [Scenario.roomba_east]
                Scenario.roomba_east Scenario.drone 1%float
                eq_refl eq_refl eq_refl eq_refl) as (_ & Far & _ & _ & Same1).
  pose proof (track_loop_thresholds Scenario2.at_threshold roomba_distance 0
                "roomba5" Scenario.world0 [Scenario2.roomba_edge]
                Scenario2.roomba_edge Scenario.drone 0.5%float
                eq_refl eq_refl eq_refl eq_refl) as (_ & Edge & _ & _ & Same2).
  pose proof (track_loop_thresholds Scenario.arrived roomba_distance 0
                "roomba2" Scenario.world0 [Scenario.roomba_near]
                Scenario.roomba_near Scenario.drone 0.25%float
                eq_refl eq_refl eq_refl eq_refl) as (_ & _ & Near & Arrive & Same3).
  split; [|split; [|split]].
  - rewrite <- Same1. exact (Far eq_refl).
  - rewrite <- Same2. exact (Edge eq_refl).
  - rewrite <- Same3. exact (Near eq_refl).
  - rewrite <- Same3. exact (Arrive eq_refl).
Defined.

(** ** search_for_roomba *)

Lemma mbind_Returned {A B} (m : M A) (k : A -> M B) w b w' :
  mbind m k w = Returned b w' ->
  exists a w1, m w = Returned a w1 /\ k a w1 = Returned b w'.
Proof.
  unfold mbind. destruct (m w) as [a w1|e w1|w1]; try discriminate.
  intros H. eauto.
Qed.

(** C9: whenever search_for_roomba returns (it returns only with a roomba),
    the attribute _search_state is 1. *)
Theorem search_for_roomba_leaves_cursor_1 ros fuel w roomba w' :
  search_for_roomba ros fuel w = Returned roomba w' ->
  search_state w' = 1%Z.
Proof.
  unfold search_for_roomba. intros H.
  apply mbind_Returned in H. destruct H as (c & w1 & _ & H).
  apply mbind_Returned in H. destruct H as (u & w2 & _ & H).
  apply mbind_Returned in H. destruct H as (r & w3 & _ & H).
  apply mbind_Returned in H. destruct H as (u' & w4 & Hset & H).
  unfold assign_search_state in Hset. injection Hset as _ <-.
  unfold ret in H. injection H as _ <-. reflexivity.
Qed.

(** The search does return: with the translate still under way and a roomba
    in sight, the first pass of the search selects it. *)
Lemma search_for_roomba_returns ros fuel w roombas odom target :
  (0 <= search_state w < 6)%Z ->
  status_failed (goal_status ros (polls w)) = false ->
  status_succeeded (goal_status ros (S (polls w))) = false ->
  avail_roombas ros (ticks w) = Some roombas ->
  roombas <> [] ->
  drone_odom ros (ticks w) = Some odom ->
  target_roomba_law roombas odom = Ok target ->
  exists w', search_for_roomba ros (S (S fuel)) w = Returned target w'
             /\ search_state w' = 1%Z.
Proof.
  intros Hc Hf Hs Ha Hne Ho Ht.
  assert (Hidx : forall c, (0 <= c < 6)%Z ->
            exists p, index SEARCH_POINTS c = Ok p).
  { intros c Hr.
    assert (Hcases : (c = 0 \/ c = 1 \/ c = 2 \/ c = 3 \/ c = 4 \/ c = 5)%Z) by lia.
    destruct Hcases as [->|[->|[->|[->|[->| ->]]]]]; eexists; reflexivity. }
  assert (Hlen : (Z.of_nat (List.length roombas) >? 0)%Z = true).
  { destruct roombas; [congruence|]. reflexivity. }
  assert (Hw : forall w0, polls w0 = polls w -> ticks w0 = ticks w ->
            wait_for_roomba ros (S fuel) w0
              = Returned (true, Some target) (polled ros (polled ros w0))).
  { intros w0 Hp Hk. cbn [wait_for_roomba].
    unfold mbind, did_task_fail, did_task_succeed, client_get_state, mbind,
      ret, self_avail_roombas, self_odom, lift, polled.
    cbn [polls ticks next_poll log_call]. rewrite Hp, Hf.
    cbn [polls ticks next_poll log_call]. rewrite Hp, Hs.
    cbn [polls ticks next_poll log_call]. rewrite Hk, Ha, Hlen.
    cbn [polls ticks next_poll log_call]. rewrite Hk, Ho, Ht.
    reflexivity. }
  assert (Hloop : forall w0, polls w0 = polls w -> ticks w0 = ticks w ->
            (0 <= search_state w0 < 6)%Z ->
            exists w', search_loop ros (S (S fuel)) w0 = Returned target w').
  { intros w0 Hp Hk Hr. destruct (Hidx _ Hr) as (p & Hp').
    cbn [search_loop]. unfold mbind at 1, self_search_state.
    unfold mbind at 1, lift. rewrite Hp'.
    unfold mbind at 1, begin_translate, client_send_goal.
    unfold mbind at 1. rewrite Hw by (cbn; assumption).
    cbn [negb]. eexists. reflexivity. }
  unfold search_for_roomba. unfold mbind at 1, self_search_state.
  destruct (negb (search_state w =? 0)%Z) eqn:E.
  - unfold mbind at 1, assign_search_state.
    destruct (Hloop (set_search_state 1 w)) as (w' & Hl);
      try reflexivity; [cbn; lia|].
    unfold mbind at 1. rewrite Hl.
    unfold mbind, assign_search_state, ret. eexists. split; reflexivity.
  - unfold mbind at 1, ret at 1.
    destruct (Hloop w) as (w' & Hl); try reflexivity; [exact Hc|].
    unfold mbind at 1. rewrite Hl.
    unfold mbind, assign_search_state, ret. eexists. split; reflexivity.
Qed.

Lemma search_for_roomba_leaves_cursor_1_witness :
  exists w',
    search_for_roomba Scenario.following 2 Scenario.world0
      = Returned Scenario.roomba_east w'
    /\ search_state w' = 1%Z.
Proof.
  eexists. split; [vm_compute; reflexivity|].
  eapply (search_for_roomba_leaves_cursor_1 Scenario.following 2 Scenario.world0).
  vm_compute. reflexivity.
Defined.

Lemma sent_goals_app log1 log2 :
  sent_goals (log1 ++ log2) = sent_goals log1 ++ sent_goals log2.
Proof. unfold sent_goals. apply flat_map_app. Qed.

Lemma next_cursor_range c : (0 <= c < 6)%Z -> (1 <= next_cursor c < 6)%Z.
Proof.
  intros H. unfold next_cursor. cbn [List.length SEARCH_POINTS].
  destruct (c + 1 <? Z.of_nat 6)%Z eqn:E; [apply Z.ltb_lt in E|]; lia.
Qed.

Lemma index_waypoint c :
  (0 <= c < 6)%Z -> index SEARCH_POINTS c = Ok (waypoint c).
Proof.
  intros H.
  assert (Hcases : (c = 0 \/ c = 1 \/ c = 2 \/ c = 3 \/ c = 4 \/ c = 5)%Z) by lia.
  destruct Hcases as [->|[->|[->|[->|[->| ->]]]]]; reflexivity.
Qed.

Lemma wait_for_roomba_succeeded ros fuel w :
  (forall n, goal_status ros n = SUCCEEDED) ->
  wait_for_roomba ros (S fuel) w
    = Returned (true, None) (polled ros (polled ros w)).
Proof.
  intros Hs. cbn [wait_for_roomba].
  unfold mbind, did_task_fail, did_task_succeed, client_get_state, mbind, ret,
    polled.
  rewrite !Hs. cbn [status_failed]. rewrite !Hs. reflexivity.
Qed.

(** With every translate succeeding and no roomba selected, the search loop
    keeps sending the waypoints of the sweep, one per pass. *)
Lemma search_loop_sweep ros :
  (forall n, goal_status ros n = SUCCEEDED) ->
  forall fuel w,
    (0 <= search_state w < 6)%Z ->
    exists w',
      search_loop ros fuel w = Running w' /\
      sent_goals (client_log w')
        = sent_goals (client_log w)
          ++ map (fun c => waypoint_goal ros (waypoint c))
                 (sweep fuel (search_state w)).
Proof.
  intros Hs. induction fuel as [|fuel IH]; intros w Hc.
  - exists w. split; [reflexivity|]. cbn. now rewrite app_nil_r.
  - cbn [search_loop]. unfold mbind at 1, self_search_state.
    unfold mbind at 1, lift. rewrite (index_waypoint _ Hc).
    unfold mbind at 1, begin_translate, client_send_goal.
    destruct fuel as [|fuel'].
    + eexists. split; [reflexivity|].
      cbn [client_log log_call sweep map]. now rewrite sent_goals_app.
    + unfold mbind at 1. rewrite (wait_for_roomba_succeeded _ _ _ Hs).
      cbn [negb]. unfold mbind at 1, assign_search_state.
      fold (next_cursor (search_state w)).
      match goal with
      | |- context [search_loop ros (S fuel') ?w2] =>
          destruct (IH w2) as (w' & Hrun & Hsent)
      end.
      { cbn. pose proof (next_cursor_range _ Hc). lia. }
      exists w'. split; [exact Hrun|].
      rewrite Hsent. cbn [client_log set_search_state polled next_poll log_call
                            search_state].
      rewrite !sent_goals_app. cbn [sent_goals flat_map app sweep map].
      rewrite <- !app_assoc. reflexivity.
Qed.

(** In an empty arena whose translates all succeed, the first goal of the
    search that starts with the cursor at 0 is the translate to
    SEARCH_POINTS[0], the center, and not the one to SEARCH_POINTS[1]. *)
Lemma search_starts_at_waypoint_0 :
  exists w',
    search_for_roomba Scenario.empty_arena 7 Scenario.world0 = Running w' /\
    map (fun g => (x_position g, y_position g)) (sent_goals (client_log w'))
      = [ (0.0, 0.0); (0.0, 7.5); (-7.5, 7.5); (-7.5, -7.5); (0.0, -7.5);
          (7.5, 0.0); (0.0, 7.5) ]%float /\
    hd_error (sent_goals (client_log w'))
      = Some (waypoint_goal Scenario.empty_arena (waypoint 0)) /\
    hd_error (sent_goals (client_log w'))
      <> Some (waypoint_goal Scenario.empty_arena (waypoint 1)).
Proof.
  eexists. split; [vm_compute; reflexivity|].
  split; [vm_compute; reflexivity|].
  split; [vm_compute; reflexivity|].
  intros H.
  apply (f_equal (fun o => match o with
                           | Some g => PrimFloat.eqb (y_position g) 0
                           | None => false
                           end)) in H.
  vm_compute in H. discriminate.
Qed.

(** C5 (amended): for the six SEARCH_POINTS and the cursor starting at 0,
    with every translate succeeding and no roomba acquired, the first
    translate of the search goes to waypoint index 0; the five that follow go
    to indices 1, 2, 3, 4, 5 in order; and the next one wraps to index 1, not
    to index 0. *)
Theorem search_sweep_from_cursor_0 ros w :
  (forall n, goal_status ros n = SUCCEEDED) ->
  search_state w = 0%Z ->
  exists w',
    search_for_roomba ros 7 w = Running w' /\
    sent_goals (client_log w')
      = sent_goals (client_log w)
        ++ map (fun c => waypoint_goal ros (waypoint c)) [0; 1; 2; 3; 4; 5; 1]%Z.
Proof.
  intros Hs Hc.
  destruct (search_loop_sweep ros Hs 7 w) as (w' & Hrun & Hsent); [lia|].
  exists w'. split.
  - unfold search_for_roomba. unfold mbind at 1, self_search_state.
    rewrite Hc. cbn [Z.eqb negb]. unfold mbind at 1, ret at 1.
    unfold mbind at 1. rewrite Hrun. reflexivity.
  - rewrite Hsent, Hc. reflexivity.
Qed.

Lemma search_sweep_from_cursor_0_witness :
  exists w',
    search_for_roomba Scenario.empty_arena 7 Scenario.world0 = Running w' /\
    sent_goals (client_log w')
      = map (fun c => waypoint_goal Scenario.empty_arena (waypoint c))
            [0; 1; 2; 3; 4; 5; 1]%Z.
Proof.
  exact (search_sweep_from_cursor_0 Scenario.empty_arena Scenario.world0
           (fun n => eq_refl) eq_refl).
Defined.

(** ** attempt_mission7 *)

(** *** Only the last statement of attempt_mission7 submits a land goal *)

Lemma land_goals_app log1 log2 :
  land_goals (log1 ++ log2) = (land_goals log1 + land_goals log2)%nat.
Proof.
  unfold land_goals. now rewrite sent_goals_app, filter_app, length_app.
Qed.

Lemma adds_no_land_ret {A} (a : A) : adds_no_land (ret a).
Proof. intros w. reflexivity. Qed.

Lemma adds_no_land_bind {A B} (m : M A) (k : A -> M B) :
  adds_no_land m -> (forall a, adds_no_land (k a)) -> adds_no_land (mbind m k).
Proof.
  intros Hm Hk w. unfold mbind. specialize (Hm w).
  destruct (m w) as [a w1|e w1|w1]; cbn in *; auto.
  now rewrite Hk.
Qed.

Lemma adds_no_land_lift {A} (r : result A) : adds_no_land (lift r).
Proof. intros w. unfold lift. now destruct r. Qed.

Lemma adds_no_land_out_of_fuel {A} : adds_no_land (@out_of_fuel A).
Proof. intros w. reflexivity. Qed.

Lemma adds_no_land_send goal :
  String.eqb (movement_type goal) "land" = false ->
  adds_no_land (client_send_goal goal).
Proof.
  intros H w. unfold client_send_goal.
  cbn [final_world client_log log_call]. rewrite land_goals_app.
  unfold land_goals at 2. cbn [sent_goals flat_map app filter].
  rewrite H. cbn. lia.
Qed.

Ltac log_grows :=
  intros w; cbv beta delta [client_cancel_goal client_get_state
                            client_wait_for_result];
  cbn [final_world client_log log_call next_poll next_tick];
  rewrite land_goals_app; cbn; lia.

Lemma adds_no_land_cancel : adds_no_land client_cancel_goal.
Proof. log_grows. Qed.

Lemma adds_no_land_get_state ros : adds_no_land (client_get_state ros).
Proof. log_grows. Qed.

Lemma adds_no_land_wait_for_result : adds_no_land client_wait_for_result.
Proof. log_grows. Qed.

Lemma adds_no_land_sleep : adds_no_land rate_sleep.
Proof. intros w. reflexivity. Qed.

Lemma adds_no_land_now ros : adds_no_land (Time_now ros).
Proof. intros w. reflexivity. Qed.

Lemma adds_no_land_roombas ros : adds_no_land (self_avail_roombas ros).
Proof. intros w. unfold self_avail_roombas. now destruct (avail_roombas _ _). Qed.

Lemma adds_no_land_odom ros : adds_no_land (self_odom ros).
Proof. intros w. unfold self_odom. now destruct (drone_odom _ _). Qed.

Lemma adds_no_land_cursor : adds_no_land self_search_state.
Proof. intros w. reflexivity. Qed.

Lemma adds_no_land_assign c : adds_no_land (assign_search_state c).
Proof. intros w. reflexivity. Qed.

Create HintDb land.
#[local] Hint Resolve adds_no_land_ret adds_no_land_lift adds_no_land_out_of_fuel
  adds_no_land_cancel adds_no_land_get_state adds_no_land_wait_for_result
  adds_no_land_sleep adds_no_land_now adds_no_land_roombas adds_no_land_odom
  adds_no_land_cursor adds_no_land_assign : land.

Ltac no_land :=
  repeat first
    [ progress auto with land
    | apply adds_no_land_bind; [|intros ?]
    | apply adds_no_land_send; reflexivity
    | match goal with
      | |- adds_no_land (if ?b then _ else _) => destruct b
      | |- adds_no_land (match ?x with _ => _ end) => destruct x
      end ].

Lemma adds_no_land_did_task_fail ros : adds_no_land (did_task_fail ros).
Proof. unfold did_task_fail. no_land. Qed.

Lemma adds_no_land_did_task_succeed ros : adds_no_land (did_task_succeed ros).
Proof. unfold did_task_succeed. no_land. Qed.

#[local] Hint Resolve adds_no_land_did_task_fail adds_no_land_did_task_succeed
  : land.

Lemma adds_no_land_wait_for_roomba ros fuel :
  adds_no_land (wait_for_roomba ros fuel).
Proof. induction fuel; cbn [wait_for_roomba]; no_land. Qed.

#[local] Hint Resolve adds_no_land_wait_for_roomba : land.

Lemma adds_no_land_search_loop ros fuel : adds_no_land (search_loop ros fuel).
Proof.
  induction fuel; cbn [search_loop]; unfold begin_translate; no_land.
Qed.

#[local] Hint Resolve adds_no_land_search_loop : land.

Lemma adds_no_land_search ros fuel : adds_no_land (search_for_roomba ros fuel).
Proof. unfold search_for_roomba. no_land. Qed.

Lemma adds_no_land_decide roomba_id roomba d st :
  adds_no_land (decide_block roomba_id roomba d st).
Proof. unfold decide_block. no_land. Qed.

Lemma adds_no_land_goto ros roomba_id d st :
  adds_no_land (goto_block ros roomba_id d st).
Proof. unfold goto_block. no_land. Qed.

Lemma adds_no_land_tracking ros st : adds_no_land (tracking_block ros st).
Proof. unfold tracking_block, did_task_finish. no_land. Qed.

#[local] Hint Resolve adds_no_land_search adds_no_land_decide adds_no_land_goto
  adds_no_land_tracking : land.

Lemma adds_no_land_track_loop ros fuel :
  forall roomba_id st, adds_no_land (track_loop ros fuel roomba_id st).
Proof. induction fuel; intros; cbn [track_loop]; no_land. Qed.

#[local] Hint Resolve adds_no_land_track_loop : land.

Lemma adds_no_land_after_tracking ros start got gotten :
  adds_no_land (after_tracking ros start got gotten).
Proof. unfold after_tracking. no_land. Qed.

#[local] Hint Resolve adds_no_land_after_tracking : land.

Lemma adds_no_land_mission_loop ros fuel :
  forall start gotten, adds_no_land (mission_loop ros fuel start gotten).
Proof.
  induction fuel; intros; cbn [mission_loop];
    unfold track_roomba_to_completion; no_land.
Qed.

Lemma adds_no_land_takeoff : adds_no_land (basic_goal "takeoff").
Proof. unfold basic_goal. no_land. Qed.

(** *** The two exits of the mission loop *)

(** The loop's check, for any outcome of tracking and any count. *)
Lemma after_tracking_decides ros start got gotten w :
  after_tracking ros start got gotten w =
    let gotten' := if got then (gotten + 1)%Z else gotten in
    if (gotten' >? TARGET_NUM_ROOMBAS)%Z
       || (clock ros (ticks w) >? start + MAX_FLIGHT_DURATION * 1000000000)%Z
    then Returned None w
    else Returned (Some gotten') w.
Proof.
  unfold after_tracking. cbv zeta.
  destruct (_ >? TARGET_NUM_ROOMBAS)%Z; [reflexivity|].
  unfold mbind, Time_now. cbn [orb].
  destruct (_ >? _)%Z; reflexivity.
Qed.

(** The check falls sixty seconds after the flight start, to the nanosecond,
    with no roomba gotten: the check does not leave the loop, and the mission
    goes on to its next search translate, with no land goal. *)
Lemma check_at_60s_goes_on :
  let ros := Scenario.on_the_minute in
  let w2 := final_world
              (track_roomba_to_completion ros 2 Scenario.roomba_east
                 (final_world (search_for_roomba ros 2
                                 (next_tick Scenario.world0)))) in
  clock ros (ticks w2) = (clock ros 0 + MAX_FLIGHT_DURATION * 1000000000)%Z /\
  after_tracking ros (clock ros 0) false 0 w2 = Returned (Some 0%Z) w2 /\
  is_running (attempt_mission7 ros 4 Scenario.world0) = true /\
  sent_goals (client_log (final_world (attempt_mission7 ros 4 Scenario.world0)))
    = [ QuadMoveGoal_default "takeoff";
        waypoint_goal ros (waypoint 0);
        construct_goto_roomba_goal Scenario.roomba_east;
        waypoint_goal ros (waypoint 1) ].
Proof. repeat split; vm_compute; reflexivity. Qed.

(** C4 (amended): a round of the acquisition loop whose search and tracking
    return ends the loop when the count of gotten roombas exceeds
    TARGET_NUM_ROOMBAS or when, at the check, the clock is strictly later than
    the flight start plus MAX_FLIGHT_DURATION, and goes round again otherwise,
    so that the loop ends at the first check where one of the two holds; and
    when attempt_mission7 returns, its last two client calls are the land goal
    and the wait for it, the only land goal it submitted. *)
Theorem attempt_mission7_exits_and_lands_once ros fuel :
  (forall start gotten w roomba w1 got w2,
     search_for_roomba ros fuel w = Returned roomba w1 ->
     track_roomba_to_completion ros fuel roomba w1 = Returned got w2 ->
     mission_loop ros (S fuel) start gotten w =
       let gotten' := if got then (gotten + 1)%Z else gotten in
       if (gotten' >? TARGET_NUM_ROOMBAS)%Z
          || (clock ros (ticks w2) >? start + MAX_FLIGHT_DURATION * 1000000000)%Z
       then Returned tt w2
       else mission_loop ros fuel start gotten' w2) /\
  (forall w w',
     attempt_mission7 ros fuel w = Returned tt w' ->
     exists log,
       client_log w'
         = log ++ [send_goal (QuadMoveGoal_default "land"); wait_for_result]
       /\ land_goals log = land_goals (client_log w)
       /\ land_goals (client_log w') = S (land_goals (client_log w))).
Proof.
  split.
  - intros start gotten w roomba w1 got w2 Hsearch Htrack.
    cbn [mission_loop]. unfold mbind at 1. rewrite Hsearch.
    unfold mbind at 1. rewrite Htrack.
    unfold mbind at 1. rewrite after_tracking_decides. cbv zeta.
    destruct (_ || _); reflexivity.
  - intros w w' H. unfold attempt_mission7 in H.
    apply mbind_Returned in H. destruct H as (start & w0 & Hnow & H).
    apply mbind_Returned in H. destruct H as ([] & w1 & Htake & H).
    apply mbind_Returned in H. destruct H as ([] & w2 & Hloop & H).
    unfold Time_now in Hnow. injection Hnow as _ <-.
    pose proof (adds_no_land_takeoff w) as L1. rewrite Htake in L1.
    pose proof (adds_no_land_mission_loop ros fuel start 0%Z w1) as L2.
    rewrite Hloop in L2. cbn [final_world] in L1, L2.
    unfold basic_goal, mbind, client_send_goal, client_wait_for_result in H.
    injection H as <-.
    exists (client_log w2).
    cbn [client_log next_tick log_call]. rewrite <- app_assoc.
    split; [reflexivity|]. split; [congruence|].
    rewrite land_goals_app. cbn. lia.
Qed.

Lemma attempt_mission7_exits_and_lands_once_witness :
  (exists w2,
     mission_loop Scenario.lost_late 3 0 0 (next_tick Scenario.world0)
       = Returned tt w2) /\
  (exists log,
     client_log
       (final_world (attempt_mission7 Scenario.lost_late 3 Scenario.world0))
       = log ++ [send_goal (QuadMoveGoal_default "land"); wait_for_result] /\
     land_goals log = 0%nat /\
     land_goals
       (client_log
          (final_world (attempt_mission7 Scenario.lost_late 3 Scenario.world0)))
       = 1%nat).
Proof.
  split.
  - eexists.
    erewrite (proj1 (attempt_mission7_exits_and_lands_once Scenario.lost_late 2)
                0%Z 0%Z (next_tick Scenario.world0));
      [ | vm_compute; reflexivity | vm_compute; reflexivity ].
    vm_compute. reflexivity.
  - apply (proj2 (attempt_mission7_exits_and_lands_once Scenario.lost_late 3)
             Scenario.world0
             (final_world
                (attempt_mission7 Scenario.lost_late 3 Scenario.world0))).
    vm_compute. reflexivity.
Defined.

(** *** The clock is read at the check only *)

(** search_for_roomba and the tracking loop are built from the client, the
    feeds and the cursor alone: under another clock they are the same
    functions. *)
Lemma search_for_roomba_clock c ros fuel w :
  search_for_roomba (with_clock c ros) fuel w = search_for_roomba ros fuel w.
Proof. reflexivity. Qed.

Lemma track_loop_clock c ros fuel roomba_id st w :
  track_loop (with_clock c ros) fuel roomba_id st w
    = track_loop ros fuel roomba_id st w.
Proof. reflexivity. Qed.

(** *** Tracking goes on for as long as the roomba is seen *)

Lemma decide_block_returns roomba_id roomba d st w :
  exists st' w', decide_block roomba_id roomba d st w = Returned st' w'.
Proof.
  unfold decide_block.
  destruct (st =? 0)%Z; [destruct (PrimFloat.leb _ _)|]; eexists; eexists;
    reflexivity.
Qed.

Lemma goto_block_returns ros roomba_id d st w :
  exists st' w', goto_block ros roomba_id d st w = Returned st' w'.
Proof.
  unfold goto_block.
  destruct (st =? 1)%Z; [|eexists; eexists; reflexivity].
  unfold mbind, did_task_succeed, did_task_fail, client_get_state, mbind, ret,
    client_cancel_goal, client_send_goal.
  destruct (PrimFloat.ltb _ _); eexists; eexists; reflexivity.
Qed.

Lemma tracking_block_returns ros st w :
  exists st' w', tracking_block ros st w = Returned st' w'.
Proof.
  unfold tracking_block.
  destruct (st =? 2)%Z; [|eexists; eexists; reflexivity].
  unfold mbind, did_task_finish, did_task_succeed, did_task_fail,
    client_get_state, mbind, ret.
  destruct (status_failed _); [eexists; eexists; reflexivity|].
  destruct (status_succeeded _); eexists; eexists; reflexivity.
Qed.

(** track_roomba_to_completion has a single return, the one for a lost
    roomba: while every snapshot holds the tracked identifier and the distance
    is defined, no amount of passes makes it return, whatever the clock. *)
Lemma track_loop_runs_while_seen ros roomba_id :
  (forall n, exists roombas roomba odom d,
      avail_roombas ros n = Some roombas /\
      find_roomba_by_id roombas roomba_id = Some roomba /\
      drone_odom ros n = Some odom /\
      roomba_distance roomba odom = Ok d) ->
  forall fuel st w, exists w', track_loop ros fuel roomba_id st w = Running w'.
Proof.
  intros Hseen. induction fuel as [|fuel IH]; intros st w.
  - exists w. reflexivity.
  - destruct (Hseen (ticks w)) as (roombas & roomba & odom & d & Ha & Hf & Ho & Hd).
    rewrite (track_loop_found _ _ _ _ _ _ _ _ _ Ha Hf Ho Hd).
    destruct (decide_block_returns roomba_id roomba d st w) as (st1 & w1 & E1).
    unfold mbind at 1. rewrite E1.
    destruct (goto_block_returns ros roomba_id d st1 w1) as (st2 & w2 & E2).
    unfold mbind at 1. rewrite E2.
    destruct (tracking_block_returns ros st2 w2) as (st3 & w3 & E3).
    unfold mbind at 1. rewrite E3.
    unfold mbind at 1, rate_sleep. apply IH.
Qed.


Lemma following_seen :
  forall n, exists roombas roomba odom d,
    avail_roombas Scenario.following n = Some roombas /\
    find_roomba_by_id roombas "roomba0" = Some roomba /\
    drone_odom Scenario.following n = Some odom /\
    roomba_distance roomba odom = Ok d.
Proof.
  intros n.
  exists [Scenario.roomba_east], Scenario.roomba_east, Scenario.drone, 1%float.
  repeat split; reflexivity.
Qed.

Lemma wait_for_roomba_following fuel w :
  wait_for_roomba Scenario.following (S fuel) w
    = Returned (true, Some Scenario.roomba_east)
        (polled Scenario.following (polled Scenario.following w)).
Proof. reflexivity. Qed.

Lemma search_loop_following fuel w r w' :
  search_loop Scenario.following fuel w = Returned r w' ->
  r = Scenario.roomba_east.
Proof.
  destruct fuel as [|fuel]; [discriminate|]. cbn [search_loop]. intros H.
  apply mbind_Returned in H. destruct H as (c & w0 & _ & H).
  apply mbind_Returned in H. destruct H as (p & w1 & _ & H).
  apply mbind_Returned in H. destruct H as (u & w2 & _ & H).
  apply mbind_Returned in H. destruct H as (found & w3 & Hw & H).
  destruct fuel as [|fuel]; [discriminate|].
  rewrite wait_for_roomba_following in Hw. injection Hw as <- <-.
  cbn in H. unfold ret in H. now injection H as <- _.
Qed.

Lemma mission_loop_following_never_returns fuel :
  forall start gotten w w',
    mission_loop Scenario.following fuel start gotten w <> Returned tt w'.
Proof.
  destruct fuel as [|fuel]; intros start gotten w w'; [discriminate|].
  cbn [mission_loop]. intros H.
  apply mbind_Returned in H. destruct H as (r & w1 & Hs & H).
  apply mbind_Returned in H. destruct H as (got & w2 & Ht & _).
  unfold search_for_roomba in Hs.
  apply mbind_Returned in Hs. destruct Hs as (c & w3 & _ & Hs).
  apply mbind_Returned in Hs. destruct Hs as (u & w4 & _ & Hs).
  apply mbind_Returned in Hs. destruct Hs as (r' & w5 & Hl & Hs).
  apply mbind_Returned in Hs. destruct Hs as (u' & w6 & _ & Hs).
  unfold ret in Hs. injection Hs as -> _.
  apply search_loop_following in Hl. subst r.
  unfold track_roomba_to_completion in Ht.
  destruct (track_loop_runs_while_seen Scenario.following "roomba0"
              following_seen fuel 0%Z w1) as (w7 & E).
  cbn [child_frame_id Scenario.roomba_east] in Ht. congruence.
Qed.

(** A roomba stays in sight one metre away.  After 2000 units of fuel the
    mission is still inside the tracking loop: the clock is more than
    MAX_FLIGHT_DURATION past the flight start and no land goal has been
    submitted; and with no amount of fuel does attempt_mission7 return. *)
Lemma mission_tracks_past_the_deadline :
  is_running (attempt_mission7 Scenario.following 2000 Scenario.world0) = true /\
  (clock Scenario.following
     (ticks (final_world
               (attempt_mission7 Scenario.following 2000 Scenario.world0)))
   >? clock Scenario.following 0 + MAX_FLIGHT_DURATION * 1000000000)%Z = true /\
  land_goals
    (client_log (final_world
                   (attempt_mission7 Scenario.following 2000 Scenario.world0)))
    = 0%nat /\
  ~ (exists fuel w',
        attempt_mission7 Scenario.following fuel Scenario.world0
          = Returned tt w').
Proof.
  split; [vm_compute; reflexivity|].
  split; [vm_compute; reflexivity|].
  split; [vm_compute; reflexivity|].
  intros (fuel & w' & H). unfold attempt_mission7 in H.
  apply mbind_Returned in H. destruct H as (start & w0 & _ & H).
  apply mbind_Returned in H. destruct H as (u & w1 & _ & H).
  apply mbind_Returned in H. destruct H as ([] & w2 & Hl & _).
  exact (mission_loop_following_never_returns _ _ _ _ _ Hl).
Qed.

(** C8 (amended): at the check of the mission loop, reached each time
    tracking returns, if the clock is later than the flight start plus
    MAX_FLIGHT_DURATION then the mission leaves the loop and submits the land
    goal, whatever the count of gotten roombas and the search cursor; the
    search and the tracking themselves do not depend on the clock. *)
Theorem deadline_is_checked_after_tracking ros fuel :
  (forall start gotten w roomba w1 got w2,
     search_for_roomba ros fuel w = Returned roomba w1 ->
     track_roomba_to_completion ros fuel roomba w1 = Returned got w2 ->
     (clock ros (ticks w2) > start + MAX_FLIGHT_DURATION * 1000000000)%Z ->
     (mission_loop ros (S fuel) start gotten ;; basic_goal "land") w
       = Returned tt
           (next_tick
              (log_call wait_for_result
                 (log_call (send_goal (QuadMoveGoal_default "land")) w2)))) /\
  (forall c w,
     search_for_roomba (with_clock c ros) fuel w = search_for_roomba ros fuel w) /\
  (forall c roomba w,
     track_roomba_to_completion (with_clock c ros) fuel roomba w
       = track_roomba_to_completion ros fuel roomba w).
Proof.
  split; [|split; reflexivity].
  intros start gotten w roomba w1 got w2 Hsearch Htrack Hlate.
  unfold mbind at 1. cbn [mission_loop].
  unfold mbind at 1. rewrite Hsearch.
  unfold mbind at 1. rewrite Htrack.
  unfold mbind at 1. rewrite after_tracking_decides. cbv zeta.
  apply Z.gt_lt, Z.gtb_lt in Hlate. rewrite Hlate, orb_true_r.
  reflexivity.
Qed.

Lemma deadline_is_checked_after_tracking_witness :
  exists w2,
    (mission_loop Scenario.lost_late 3 0 0 ;; basic_goal "land")
      (next_tick Scenario.world0)
    = Returned tt
        (next_tick
           (log_call wait_for_result
              (log_call (send_goal (QuadMoveGoal_default "land")) w2))).
Proof.
  eexists.
  eapply (proj1 (deadline_is_checked_after_tracking Scenario.lost_late 2)
            0%Z 0%Z (next_tick Scenario.world0)).
  - vm_compute. reflexivity.
  - vm_compute. reflexivity.
  - vm_compute. reflexivity.
Defined.

(** C6: the one-goal discipline on a run of the mission.  The search has its
    translate to SEARCH_POINTS[0] under way (both polls answer ACTIVE) when a
    roomba comes in sight; the tracking loop then submits its translate to the
    roomba with no cancel_goal in between. *)
Theorem mission_submits_over_an_active_goal :
  is_running (attempt_mission7 Scenario.following 3 Scenario.world0) = true /\
  firstn 6 (client_log
              (final_world
                 (attempt_mission7 Scenario.following 3 Scenario.world0)))
    = [ send_goal (QuadMoveGoal_default "takeoff");
        wait_for_result;
        send_goal (waypoint_goal Scenario.following (waypoint 0));
        get_state ACTIVE;
        get_state ACTIVE;
        send_goal (construct_goto_roomba_goal Scenario.roomba_east) ] /\
  one_goal_at_a_time false
    (client_log
       (final_world (attempt_mission7 Scenario.following 3 Scenario.world0)))
    = false.
Proof. repeat split; vm_compute; reflexivity. Qed.

(** * Further properties of the script *)

(** ** target_roomba_law and roomba_distance *)

Lemma target_roomba_law_nearest_witness :
  exists r d,
    target_roomba_law [Scenario.roomba_east; Scenario.roomba_near] Scenario.drone
      = Ok r /\
    In r [Scenario.roomba_east; Scenario.roomba_near] /\
    roomba_distance r Scenario.drone = Ok d /\
    forall r' d',
      In r' [Scenario.roomba_east; Scenario.roomba_near] ->
      roomba_distance r' Scenario.drone = Ok d' ->
      PrimFloat.leb d d' = true.
Proof.
  apply (target_roomba_law_nearest
           [Scenario.roomba_east; Scenario.roomba_near] Scenario.drone).
  - discriminate.
  - intros r [<-|[<-|[]]]; eexists; split; reflexivity.
Defined.

Lemma target_roomba_law_In roombas odom r :
  target_roomba_law roombas odom = Ok r -> In r roombas.
Proof.
  unfold target_roomba_law.
  set (f := fun r => bind (roomba_distance r odom) (fun d => Ok (d, r))).
  destruct (comprehension f roombas) as [keyed|e] eqn:E; [|discriminate].
  cbn [bind]. unfold index. cbn [Z.ltb Z.compare].
  destruct (sorted tuple_lt keyed) as [|[d r0] rest] eqn:Es; [discriminate|].
  cbn. intros H. injection H as <-.
  assert (Hin : In (d, r0) keyed).
  { apply (sorted_In tuple_lt). rewrite Es. now left. }
  apply (comprehension_Ok_In f roombas keyed E) in Hin.
  destruct Hin as (x & Hx & Fx). unfold f in Fx.
  destruct (roomba_distance x odom); [|discriminate].
  cbn in Fx. now injection Fx as _ <-.
Qed.

(** X2: whatever target_roomba_law returns is a member of the snapshot it was
    given. *)
Theorem target_roomba_law_member roombas odom r :
  target_roomba_law roombas odom = Ok r -> In r roombas.
Proof. apply target_roomba_law_In. Qed.

Lemma target_roomba_law_member_witness :
  In Scenario.roomba_near [Scenario.roomba_east; Scenario.roomba_near].
Proof.
  apply (target_roomba_law_member _ Scenario.drone). vm_compute. reflexivity.
Defined.

Lemma comprehension_Raise {A B} (f : A -> result B) l x e :
  In x l -> f x = Raise e -> exists e', comprehension f l = Raise e'.
Proof.
  induction l as [|a l IH]; [intros []|].
  intros [<-|Hx] Fx; cbn [comprehension].
  - rewrite Fx. eexists. reflexivity.
  - destruct (f a); [|eexists; reflexivity]. cbn [bind].
    destruct (IH Hx Fx) as (e' & ->). eexists. reflexivity.
Qed.

(** X3: one roomba of the snapshot whose distance cannot be computed makes
    the whole selection raise, wherever it stands in the snapshot and however
    near the others are. *)
Theorem target_roomba_law_propagates roombas odom r e :
  In r roombas -> roomba_distance r odom = Raise e ->
  exists e', target_roomba_law roombas odom = Raise e'.
Proof.
  intros Hr He. unfold target_roomba_law.
  destruct (comprehension_Raise
              (fun r => bind (roomba_distance r odom) (fun d => Ok (d, r)))
              roombas r e Hr) as (e' & ->).
  - now rewrite He.
  - eexists. reflexivity.
Qed.

Lemma target_roomba_law_propagates_witness :
  exists e',
    target_roomba_law [Scenario.roomba_near; Scenario2.roomba_far] Scenario.drone
      = Raise e'.
Proof.
  apply (target_roomba_law_propagates _ _ Scenario2.roomba_far OverflowError).
  - right. left. reflexivity.
  - vm_compute. reflexivity.
Defined.

Module FloatSign.

Lemma is_nan_true_SF x : PrimFloat.is_nan x = true -> Prim2SF x = S754_nan.
Proof.
  unfold PrimFloat.is_nan. rewrite FloatAxioms.eqb_spec. unfold SFeqb.
  destruct (Prim2SF x) as [[]|[]| |[] m e]; cbn; try discriminate; auto;
    rewrite Z.compare_refl, Pos.compare_cont_refl; discriminate.
Qed.

Lemma nan_not_above x d :
  PrimFloat.is_nan d = true ->
  PrimFloat.eqb x d = false /\ PrimFloat.ltb x d = false.
Proof.
  intros H. apply is_nan_true_SF in H.
  rewrite FloatAxioms.eqb_spec, FloatAxioms.ltb_spec, H.
  unfold SFeqb, SFltb. now destruct (Prim2SF x).
Qed.

Lemma binary_round_aux_sign prec emax sx mx ex lx :
  match binary_round_aux prec emax sx mx ex lx with
  | S754_zero s | S754_infinity s | S754_finite s _ _ => s = sx
  | S754_nan => True
  end.
Proof.
  unfold binary_round_aux.
  destruct (shr_fexp prec emax mx ex lx) as [mrs' e'].
  destruct (shr_fexp prec emax _ e' loc_Exact) as [mrs'' e''].
  destruct (shr_m mrs''); auto.
  destruct (e'' <=? emax - prec)%Z; auto.
Qed.

Lemma binary_round_aux_nonneg prec emax mx ex lx :
  SFnonneg (binary_round_aux prec emax false mx ex lx).
Proof.
  pose proof (binary_round_aux_sign prec emax false mx ex lx) as H.
  destruct (binary_round_aux prec emax false mx ex lx); cbn; auto.
Qed.

Lemma SFmul_self_nonneg prec emax f : SFnonneg (SFmul prec emax f f).
Proof.
  destruct f as [[]|[]| |[] m e]; cbn; auto; apply binary_round_aux_nonneg.
Qed.

Lemma SFadd_nonneg prec emax f g :
  SFnonneg f -> SFnonneg g -> SFnonneg (SFadd prec emax f g).
Proof.
  destruct f as [[]|[]| |[] m1 e1], g as [[]|[]| |[] m2 e2]; cbn;
    try discriminate; auto; intros _ _.
  unfold binary_normalize, binary_round.
  destruct (shl_align _ _ _) as [mz ez]. cbn.
  apply binary_round_aux_nonneg.
Qed.

Lemma SFsqrt_nonneg prec emax f : SFnonneg (SFsqrt prec emax f).
Proof.
  destruct f as [[]|[]| |[] m e]; cbn; auto.
  destruct (SFsqrt_core_binary prec emax (Z.pos m) e) as [[mz ez] lz].
  apply binary_round_aux_nonneg.
Qed.

Lemma SFnonneg_not_below_zero f :
  SFnonneg f -> SFltb f (S754_zero false) = false.
Proof.
  unfold SFltb. destruct f as [[]|[]| |[] m e]; cbn; auto; discriminate.
Qed.

End FloatSign.

Lemma pow2_nonneg x xx : pow2 x = Ok xx -> SFnonneg (Prim2SF xx).
Proof.
  unfold pow2. destruct (_ && _); [discriminate|].
  intros H. injection H as <-. rewrite FloatAxioms.mul_spec.
  apply FloatSign.SFmul_self_nonneg.
Qed.

Lemma pow2_raises x e : pow2 x = Raise e -> e = OverflowError.
Proof.
  unfold pow2. destruct (_ && _); [|discriminate]. now intros [= <-].
Qed.

Lemma roomba_distance_cases roomba_odom drone_odom :
  match roomba_distance roomba_odom drone_odom with
  | Ok d => PrimFloat.ltb d 0 = false
  | Raise e => e = OverflowError
  end.
Proof.
  unfold roomba_distance.
  destruct (pow2 (position_x drone_odom - position_x roomba_odom)) as [xx|e] eqn:Ex;
    cbn [bind]; [|now apply pow2_raises in Ex].
  destruct (pow2 (position_y drone_odom - position_y roomba_odom)) as [yy|e] eqn:Ey;
    cbn [bind]; [|now apply pow2_raises in Ey].
  apply pow2_nonneg in Ex, Ey.
  assert (Hsum : SFnonneg (Prim2SF (xx + yy))).
  { rewrite FloatAxioms.add_spec. now apply FloatSign.SFadd_nonneg. }
  unfold math_sqrt.
  assert (Hlt : PrimFloat.ltb (xx + yy) 0 = false).
  { rewrite FloatAxioms.ltb_spec. now apply FloatSign.SFnonneg_not_below_zero. }
  rewrite Hlt.
  rewrite FloatAxioms.ltb_spec, FloatAxioms.sqrt_spec.
  apply FloatSign.SFnonneg_not_below_zero, FloatSign.SFsqrt_nonneg.
Qed.

(** X4: roomba_distance has a single failure, the OverflowError of a
    coordinate difference too large to square; the square root never sees a
    negative number, and a distance that is returned is never below zero (it
    is a non-negative number, plus infinity or NaN). *)
Theorem roomba_distance_outcomes roomba_odom drone_odom :
  match roomba_distance roomba_odom drone_odom with
  | Ok d => PrimFloat.ltb d 0 = false
  | Raise e => e = OverflowError
  end.
Proof. apply roomba_distance_cases. Qed.

Lemma insort_after_nan x p l :
  PrimFloat.is_nan (fst p) = true ->
  insort tuple_lt x (p :: l) = p :: insort tuple_lt x l.
Proof.
  intros Hn. cbn [insort]. unfold tuple_lt at 1.
  destruct (FloatSign.nan_not_above (fst x) (fst p) Hn) as [-> ->].
  reflexivity.
Qed.

Lemma sorted_nan_first p l :
  PrimFloat.is_nan (fst p) = true ->
  exists rest, sorted tuple_lt (p :: l) = p :: rest.
Proof.
  intros Hn. unfold sorted. cbn [fold_left insort].
  assert (G : forall acc, exists rest,
             fold_left (fun acc x => insort tuple_lt x acc) l (p :: acc)
               = p :: rest).
  { induction l as [|a l IH]; intros acc; cbn [fold_left].
    - now exists acc.
    - rewrite insort_after_nan by exact Hn. apply IH. }
  apply G.
Qed.

(** X5: a roomba at the head of the snapshot whose distance is NaN is the one
    selected, however near the roombas after it are: nothing compares below
    NaN, so the sort leaves it in front. *)
Theorem target_roomba_law_nan_first r rest odom d :
  roomba_distance r odom = Ok d ->
  PrimFloat.is_nan d = true ->
  (forall r', In r' rest -> exists d', roomba_distance r' odom = Ok d') ->
  target_roomba_law (r :: rest) odom = Ok r.
Proof.
  intros Hd Hn Hrest. unfold target_roomba_law. cbn [comprehension].
  rewrite Hd. cbn [bind].
  destruct (comprehension_total
              (fun r => bind (roomba_distance r odom) (fun d => Ok (d, r))) rest)
    as (keyed & -> & _).
  { intros x Hx. destruct (Hrest x Hx) as (d' & ->). eexists. reflexivity. }
  cbn [bind].
  destruct (sorted_nan_first (d, r) keyed Hn) as (tail & ->).
  reflexivity.
Qed.

Lemma target_roomba_law_nan_first_witness :
  target_roomba_law [Scenario2.roomba_nan; Scenario.roomba_near] Scenario.drone
    = Ok Scenario2.roomba_nan.
Proof.
  apply (target_roomba_law_nan_first _ _ _ PrimFloat.nan).
  - vm_compute. reflexivity.
  - vm_compute. reflexivity.
  - intros r' [<-|[]]. eexists. vm_compute. reflexivity.
Defined.

(** ** The cursor stays on a waypoint *)

Lemma keeps_cursor_bind {A B} (m : M A) (k : A -> M B) :
  keeps_cursor m -> (forall a, keeps_cursor (k a)) -> keeps_cursor (mbind m k).
Proof.
  intros Hm Hk w Hw. unfold mbind. specialize (Hm w Hw).
  destruct (m w) as [a w1|e w1|w1]; cbn [final_world] in *; auto.
  now apply Hk.
Qed.

Lemma keeps_cursor_untouched {A} (m : M A) :
  (forall w, search_state (final_world (m w)) = search_state w) ->
  keeps_cursor m.
Proof. intros H w Hw. unfold cursor_in_range. now rewrite H. Qed.

Lemma keeps_cursor_ret {A} (a : A) : keeps_cursor (ret a).
Proof. now apply keeps_cursor_untouched. Qed.

Lemma keeps_cursor_out_of_fuel {A} : keeps_cursor (@out_of_fuel A).
Proof. now apply keeps_cursor_untouched. Qed.

Lemma keeps_cursor_lift {A} (r : result A) : keeps_cursor (lift r).
Proof. apply keeps_cursor_untouched. intros w. unfold lift. now destruct r. Qed.

Lemma keeps_cursor_send goal : keeps_cursor (client_send_goal goal).
Proof. now apply keeps_cursor_untouched. Qed.

Lemma keeps_cursor_cancel : keeps_cursor client_cancel_goal.
Proof. now apply keeps_cursor_untouched. Qed.

Lemma keeps_cursor_get_state ros : keeps_cursor (client_get_state ros).
Proof. now apply keeps_cursor_untouched. Qed.

Lemma keeps_cursor_wait_for_result : keeps_cursor client_wait_for_result.
Proof. now apply keeps_cursor_untouched. Qed.

Lemma keeps_cursor_sleep : keeps_cursor rate_sleep.
Proof. now apply keeps_cursor_untouched. Qed.

Lemma keeps_cursor_now ros : keeps_cursor (Time_now ros).
Proof. now apply keeps_cursor_untouched. Qed.

Lemma keeps_cursor_read : keeps_cursor self_search_state.
Proof. now apply keeps_cursor_untouched. Qed.

Lemma keeps_cursor_roombas ros : keeps_cursor (self_avail_roombas ros).
Proof.
  apply keeps_cursor_untouched. intros w. unfold self_avail_roombas.
  now destruct (avail_roombas ros (ticks w)).
Qed.

Lemma keeps_cursor_odom ros : keeps_cursor (self_odom ros).
Proof.
  apply keeps_cursor_untouched. intros w. unfold self_odom.
  now destruct (drone_odom ros (ticks w)).
Qed.

Lemma keeps_cursor_assign c :
  (0 <= c < 6)%Z -> keeps_cursor (assign_search_state c).
Proof. intros Hc w Hw. exact Hc. Qed.

Create HintDb cursor.
#[local] Hint Resolve keeps_cursor_ret keeps_cursor_out_of_fuel keeps_cursor_lift
  keeps_cursor_send keeps_cursor_cancel keeps_cursor_get_state
  keeps_cursor_wait_for_result keeps_cursor_sleep keeps_cursor_now
  keeps_cursor_read keeps_cursor_roombas keeps_cursor_odom : cursor.

Ltac cursor_kept :=
  repeat first
    [ progress auto with cursor
    | apply keeps_cursor_bind; [|intros ?]
    | apply keeps_cursor_assign; lia
    | match goal with
      | |- keeps_cursor (if ?b then _ else _) => destruct b
      | |- keeps_cursor (match ?x with _ => _ end) => destruct x
      end ].

Lemma keeps_cursor_wait_for_roomba ros fuel :
  keeps_cursor (wait_for_roomba ros fuel).
Proof.
  induction fuel; cbn [wait_for_roomba];
    unfold did_task_fail, did_task_succeed; cursor_kept.
Qed.

#[local] Hint Resolve keeps_cursor_wait_for_roomba : cursor.

Lemma search_loop_pass ros fuel w :
  cursor_in_range w ->
  search_loop ros (S fuel) w =
    (begin_translate ros (waypoint (search_state w)) ;;
     found <- wait_for_roomba ros fuel ;;
     (let (xyz_translate_ok, roomba) := found in
      if negb xyz_translate_ok then search_loop ros fuel
      else match roomba with
           | Some r => ret r
           | None =>
               assign_search_state (next_cursor (search_state w)) ;;
               search_loop ros fuel
           end)) w.
Proof.
  intros Hw. cbn [search_loop]. unfold mbind at 1, self_search_state.
  unfold mbind at 1, lift. rewrite (index_waypoint _ Hw). reflexivity.
Qed.

Lemma keeps_cursor_search_loop ros fuel : keeps_cursor (search_loop ros fuel).
Proof.
  induction fuel as [|fuel IH]; [cbn [search_loop]; cursor_kept|].
  intros w Hw. rewrite (search_loop_pass _ _ _ Hw).
  pose proof (next_cursor_range _ Hw) as Hn.
  assert (G : keeps_cursor
    (begin_translate ros (waypoint (search_state w)) ;;
     found <- wait_for_roomba ros fuel ;;
     (let (xyz_translate_ok, roomba) := found in
      if negb xyz_translate_ok then search_loop ros fuel
      else match roomba with
           | Some r => ret r
           | None =>
               assign_search_state (next_cursor (search_state w)) ;;
               search_loop ros fuel
           end))).
  { unfold begin_translate. cursor_kept. }
  exact (G w Hw).
Qed.

#[local] Hint Resolve keeps_cursor_search_loop : cursor.

Lemma keeps_cursor_search ros fuel : keeps_cursor (search_for_roomba ros fuel).
Proof. unfold search_for_roomba. cursor_kept. Qed.

Lemma keeps_cursor_track_loop ros fuel :
  forall roomba_id st, keeps_cursor (track_loop ros fuel roomba_id st).
Proof.
  induction fuel; intros; cbn [track_loop];
    unfold decide_block, goto_block, tracking_block, did_task_finish,
      did_task_fail, did_task_succeed; cursor_kept.
Qed.

#[local] Hint Resolve keeps_cursor_search keeps_cursor_track_loop : cursor.

Lemma keeps_cursor_mission_loop ros fuel :
  forall start gotten, keeps_cursor (mission_loop ros fuel start gotten).
Proof.
  induction fuel; intros; cbn [mission_loop];
    unfold track_roomba_to_completion, after_tracking; cursor_kept.
Qed.

#[local] Hint Resolve keeps_cursor_mission_loop : cursor.

(** X6: started with _search_state on a waypoint (an index of SEARCH_POINTS),
    the mission, the search and the tracking leave it on a waypoint, however
    far they have run and however they end: the only statements that assign it
    are those of search_for_roomba, and each assigns an index of
    SEARCH_POINTS. *)
Theorem mission_keeps_cursor_on_a_waypoint ros fuel w :
  cursor_in_range w ->
  cursor_in_range (final_world (attempt_mission7 ros fuel w)) /\
  cursor_in_range (final_world (search_for_roomba ros fuel w)) /\
  (forall roomba,
     cursor_in_range
       (final_world (track_roomba_to_completion ros fuel roomba w))).
Proof.
  intros Hw. split; [|split].
  - assert (G : keeps_cursor (attempt_mission7 ros fuel))
      by (unfold attempt_mission7, basic_goal; cursor_kept).
    exact (G w Hw).
  - exact (keeps_cursor_search ros fuel w Hw).
  - intros roomba.
    exact (keeps_cursor_track_loop ros fuel (child_frame_id roomba) 0%Z w Hw).
Qed.

Lemma mission_keeps_cursor_on_a_waypoint_witness :
  cursor_in_range
    (final_world (attempt_mission7 Scenario.empty_arena 9 Scenario.world0)).
Proof.
  apply (mission_keeps_cursor_on_a_waypoint
           Scenario.empty_arena 9 Scenario.world0).
  unfold cursor_in_range. cbn. lia.
Defined.

(** ** track_roomba_to_completion returns for one reason only *)

(** X7: track_roomba_to_completion never returns True; when it returns, it
    returns False and the tracked identifier is absent from the snapshot of
    that moment. *)
Theorem track_returns_only_when_lost ros fuel roomba w b w' :
  track_roomba_to_completion ros fuel roomba w = Returned b w' ->
  b = false /\
  exists roombas,
    avail_roombas ros (ticks w') = Some roombas /\
    find_roomba_by_id roombas (child_frame_id roomba) = None.
Proof.
  unfold track_roomba_to_completion.
  generalize (child_frame_id roomba) as roomba_id. generalize 0%Z as st.
  revert w. induction fuel as [|fuel IH]; intros w st roomba_id; [discriminate|].
  cbn [track_loop]. intros H.
  apply mbind_Returned in H. destruct H as (roombas & w0 & Ha & H).
  unfold self_avail_roombas in Ha.
  destruct (avail_roombas ros (ticks w)) as [l|] eqn:El; [|discriminate].
  injection Ha as <- <-.
  destruct (find_roomba_by_id l roomba_id) as [r|] eqn:Ef.
  - apply mbind_Returned in H. destruct H as (odom & w1 & _ & H).
    apply mbind_Returned in H. destruct H as (d & w2 & _ & H).
    apply mbind_Returned in H. destruct H as (st1 & w3 & _ & H).
    apply mbind_Returned in H. destruct H as (st2 & w4 & _ & H).
    apply mbind_Returned in H. destruct H as (st3 & w5 & _ & H).
    apply mbind_Returned in H. destruct H as (u & w6 & _ & H).
    exact (IH _ _ _ H).
  - unfold ret in H. injection H as <- <-. split; [reflexivity|].
    exists l. split; assumption.
Qed.

Lemma track_returns_only_when_lost_witness :
  false = false /\
  exists roombas,
    avail_roombas Scenario.lost_late 2 = Some roombas /\
    find_roomba_by_id roombas "roomba0" = None.
Proof.
  apply (track_returns_only_when_lost Scenario.lost_late 2 Scenario.roomba_east
           (next_tick Scenario.world0) false
           (final_world
              (track_roomba_to_completion Scenario.lost_late 2
                 Scenario.roomba_east (next_tick Scenario.world0)))).
  vm_compute. reflexivity.
Defined.

(** ** How attempt_mission7 ends *)




Lemma mbind_Raised {A B} (m : M A) (k : A -> M B) w e w' :
  mbind m k w = Raised e w' ->
  m w = Raised e w' \/ exists a w1, m w = Returned a w1 /\ k a w1 = Raised e w'.
Proof.
  unfold mbind. destruct (m w) as [a w1|e1 w1|w1]; try discriminate.
  - intros H. right. eauto.
  - intros [= <- <-]. left. reflexivity.
Qed.

(** X9: an exception ends the mission in the air.  When attempt_mission7
    raises, it has submitted no land goal: nothing catches the exception on the
    way to the land statement. *)
Theorem attempt_mission7_raise_skips_landing ros fuel w e w' :
  attempt_mission7 ros fuel w = Raised e w' ->
  land_goals (client_log w') = land_goals (client_log w).
Proof.
  unfold attempt_mission7. intros H.
  apply mbind_Raised in H. destruct H as [H|(start & w0 & Hnow & H)];
    [discriminate|].
  unfold Time_now in Hnow. injection Hnow as <- <-.
  pose proof (adds_no_land_takeoff w) as L1.
  apply mbind_Raised in H. destruct H as [H|([] & w1 & Htake & H)];
    [discriminate|].
  rewrite Htake in L1. cbn [final_world] in L1.
  apply mbind_Raised in H. destruct H as [H|([] & w2 & Hloop & H)].
  - pose proof (adds_no_land_mission_loop ros fuel (clock ros (ticks w)) 0%Z w1)
      as L2.
    rewrite H in L2. cbn [final_world] in L2. congruence.
  - discriminate.
Qed.

Lemma attempt_mission7_raise_skips_landing_witness :
  land_goals
    (client_log
       (final_world (attempt_mission7 Scenario2.no_feed 3 Scenario.world0)))
    = land_goals (client_log Scenario.world0).
Proof.
  apply (attempt_mission7_raise_skips_landing Scenario2.no_feed 3
           Scenario.world0 AttributeError).
  vm_compute. reflexivity.
Defined.

(** ** The tracking loop under a goal that stays active, or keeps failing *)

Lemma status_terminal_false s :
  status_terminal s = false ->
  status_failed s = false /\ status_succeeded s = false.
Proof. unfold status_terminal. apply orb_false_elim. Qed.

Lemma status_failed_not_succeeded s :
  status_failed s = true -> status_succeeded s = false.
Proof. now destruct s. Qed.

Lemma tracking_block_active ros w :
  status_failed (goal_status ros (S (polls w))) = false ->
  status_succeeded (goal_status ros (S (S (polls w)))) = false ->
  tracking_block ros 2 w
    = Returned 2%Z (polled ros (polled ros (polled ros w))).
Proof.
  intros F S2. unfold tracking_block. change (2 =? 2)%Z with true. cbv iota.
  unfold mbind, did_task_finish, did_task_fail, did_task_succeed, mbind,
    client_get_state, ret, polled.
  cbn [polls next_poll log_call]. rewrite F.
  cbn [polls next_poll log_call]. rewrite S2. reflexivity.
Qed.

(** X10: while the track_roomba goal stays active the tracking loop leaves it
    alone.  From track_state 2, with every poll answering a status that is not
    terminal and the roomba in every snapshot, each pass only polls the client
    (three times) and sleeps once: no goal is submitted and none is cancelled,
    however far from the drone the roomba gets. *)
Theorem tracking_leaves_active_goal_alone ros roomba_id :
  (forall n, status_terminal (goal_status ros n) = false) ->
  always_seen ros roomba_id ->
  forall fuel w,
    exists w' calls,
      track_loop ros fuel roomba_id 2 w = Running w' /\
      client_log w' = client_log w ++ calls /\
      polls_only calls /\
      List.length calls = (3 * fuel)%nat /\
      ticks w' = (ticks w + fuel)%nat.
Proof.
  intros Hact Hseen. induction fuel as [|fuel IH]; intros w.
  - exists w, []. repeat split; [now rewrite app_nil_r|constructor|lia].
  - destruct (Hseen (ticks w)) as (roombas & roomba & odom & d & Ha & Hf & Ho & Hd).
    rewrite (track_loop_found _ _ _ _ _ _ _ _ _ Ha Hf Ho Hd).
    unfold mbind at 1, decide_block. change (2 =? 0)%Z with false.
    cbv iota. unfold ret at 1.
    unfold mbind at 1, goto_block. change (2 =? 1)%Z with false.
    cbv iota. unfold ret at 1.
    destruct (status_terminal_false _ (Hact (S (polls w)))) as [F1 _].
    destruct (status_terminal_false _ (Hact (S (S (polls w))))) as [_ S2].
    unfold mbind at 1. rewrite (tracking_block_active _ _ F1 S2).
    unfold mbind at 1, rate_sleep.
    match goal with
    | |- context [track_loop ros fuel roomba_id 2%Z ?w3] =>
        destruct (IH w3) as (w' & calls & Hrun & Hlog & Hpolls & Hlen & Hticks)
    end.
    exists w'. eexists. split; [exact Hrun|].
    rewrite Hlog, Hticks.
    unfold polled. cbn [client_log ticks next_tick next_poll log_call].
    rewrite <- !app_assoc. split; [reflexivity|].
    split; [|split; [cbn [app List.length]; rewrite Hlen|]; lia].
    repeat constructor. exact Hpolls.
Qed.

Lemma following_always_seen : always_seen Scenario.following "roomba0".
Proof. exact following_seen. Qed.

Lemma tracking_leaves_active_goal_alone_witness :
  exists w' calls,
    track_loop Scenario.following 5 "roomba0" 2 Scenario.world0 = Running w' /\
    client_log w' = client_log Scenario.world0 ++ calls /\
    polls_only calls /\
    List.length calls = 15%nat /\
    ticks w' = 5%nat.
Proof.
  apply (tracking_leaves_active_goal_alone Scenario.following "roomba0"
           (fun n => eq_refl) following_always_seen 5 Scenario.world0).
Defined.

Lemma goto_block_failed ros roomba_id d w :
  status_failed (goal_status ros (S (S (polls w)))) = true ->
  PrimFloat.ltb d MIN_GOTO_DISTANCE = false ->
  goto_block ros roomba_id d 1 w
    = Returned 0%Z (polled ros (polled ros (polled ros w))).
Proof.
  intros F Hd. unfold goto_block. change (1 =? 1)%Z with true. cbv iota.
  rewrite Hd.
  unfold mbind, did_task_fail, did_task_succeed, mbind, client_get_state, ret,
    polled.
  cbn [polls next_poll log_call]. rewrite F. reflexivity.
Qed.

(** X11: a translate to the roomba that keeps failing is submitted again on
    every pass.  From track_state 0, with every poll answering a failed status
    and the roomba in every snapshot at MIN_GOTO_DISTANCE or more, each pass
    submits one more xyztranslate goal, falls back to the decision and sleeps
    once; the loop does not return and has no limit on the retries. *)
Theorem tracking_resends_failed_goal ros roomba_id :
  (forall n, status_failed (goal_status ros n) = true) ->
  always_seen_far ros roomba_id ->
  forall fuel w,
    exists w' goals,
      track_loop ros fuel roomba_id 0 w = Running w' /\
      sent_goals (client_log w') = sent_goals (client_log w) ++ goals /\
      List.length goals = fuel /\
      Forall (fun g => movement_type g = "xyztranslate"%string) goals /\
      ticks w' = (ticks w + fuel)%nat.
Proof.
  intros Hfail Hseen. induction fuel as [|fuel IH]; intros w.
  - exists w, []. repeat split; [now rewrite app_nil_r|constructor|lia].
  - destruct (Hseen (ticks w))
      as (roombas & roomba & odom & d & Ha & Hf & Ho & Hd & Hfar).
    rewrite (track_loop_found _ _ _ _ _ _ _ _ _ Ha Hf Ho Hd).
    unfold mbind at 1, decide_block. change (0 =? 0)%Z with true.
    cbv iota. rewrite Hfar.
    unfold mbind at 1, client_send_goal, ret at 1.
    unfold mbind at 1.
    rewrite (goto_block_failed ros roomba_id d _ (Hfail _)
               (FloatOrder.leb_ltb_false _ _ Hfar)).
    unfold mbind at 1, tracking_block. change (0 =? 2)%Z with false.
    cbv iota. unfold ret at 1. unfold mbind at 1, rate_sleep.
    match goal with
    | |- context [track_loop ros fuel roomba_id 0%Z ?w3] =>
        destruct (IH w3) as (w' & goals & Hrun & Hsent & Hlen & Hall & Hticks)
    end.
    exists w', (construct_goto_roomba_goal roomba :: goals).
    split; [exact Hrun|]. rewrite Hsent, Hticks.
    unfold polled. cbn [client_log ticks next_tick next_poll log_call].
    rewrite !sent_goals_app. cbn [sent_goals flat_map app].
    rewrite !app_nil_r, <- app_assoc.
    split; [reflexivity|].
    split; [cbn [List.length]; now rewrite Hlen|].
    split; [constructor; [reflexivity|exact Hall]|lia].
Qed.

Lemma aborting_always_seen_far : always_seen_far Scenario2.aborting "roomba0".
Proof.
  intros n.
  exists [Scenario.roomba_east], Scenario.roomba_east, Scenario.drone, 1%float.
  repeat split; reflexivity.
Qed.

Lemma tracking_resends_failed_goal_witness :
  exists w' goals,
    track_loop Scenario2.aborting 4 "roomba0" 0 Scenario.world0 = Running w' /\
    sent_goals (client_log w')
      = sent_goals (client_log Scenario.world0) ++ goals /\
    List.length goals = 4%nat /\
    Forall (fun g => movement_type g = "xyztranslate"%string) goals /\
    ticks w' = 4%nat.
Proof.
  apply (tracking_resends_failed_goal Scenario2.aborting "roomba0"
           (fun n => eq_refl) aborting_always_seen_far 4 Scenario.world0).
Defined.

(** ** The search under a translate that keeps failing *)

Lemma wait_for_roomba_failed ros fuel w :
  status_failed (goal_status ros (polls w)) = true ->
  wait_for_roomba ros (S fuel) w = Returned (false, None) (polled ros w).
Proof.
  intros F. cbn [wait_for_roomba].
  unfold mbind, did_task_fail, client_get_state, mbind, ret, polled.
  rewrite F. reflexivity.
Qed.

(** X12: a search translate that keeps failing is retried at the same
    waypoint, and the failure is looked at before the roombas.  With every poll
    answering a failed status, each pass of the search submits the translate
    to the waypoint at the cursor again, whatever the roombas feed holds; the
    cursor does not move, the search does not return, and it never sleeps
    between two submissions. *)
Theorem search_retries_failed_translate ros :
  (forall n, status_failed (goal_status ros n) = true) ->
  forall fuel w,
    cursor_in_range w ->
    exists w',
      search_loop ros fuel w = Running w' /\
      sent_goals (client_log w')
        = sent_goals (client_log w)
          ++ repeat (waypoint_goal ros (waypoint (search_state w))) fuel /\
      search_state w' = search_state w /\
      ticks w' = ticks w.
Proof.
  intros Hfail. induction fuel as [|fuel IH]; intros w Hw.
  - exists w. repeat split. cbn [repeat]. now rewrite app_nil_r.
  - rewrite (search_loop_pass _ _ _ Hw).
    unfold mbind at 1, begin_translate, client_send_goal.
    destruct fuel as [|fuel'].
    + eexists. split; [reflexivity|].
      cbn [final_world client_log log_call search_state ticks repeat].
      rewrite sent_goals_app. repeat split.
    + unfold mbind at 1. rewrite (wait_for_roomba_failed _ _ _ (Hfail _)).
      cbn [negb].
      match goal with
      | |- context [search_loop ros (S fuel') ?w2] =>
          destruct (IH w2) as (w' & Hrun & Hsent & Hcur & Hticks); [exact Hw|]
      end.
      exists w'. split; [exact Hrun|].
      rewrite Hsent, Hcur, Hticks.
      unfold polled. cbn [client_log ticks search_state next_poll log_call].
      rewrite !sent_goals_app. cbn [sent_goals flat_map app repeat].
      rewrite !app_nil_r, <- app_assoc. repeat split.
Qed.

Lemma search_retries_failed_translate_witness :
  exists w',
    search_loop Scenario2.aborting 5 Scenario.world0 = Running w' /\
    sent_goals (client_log w')
      = sent_goals (client_log Scenario.world0)
        ++ repeat (waypoint_goal Scenario2.aborting
                     (waypoint (search_state Scenario.world0))) 5 /\
    search_state w' = search_state Scenario.world0 /\
    ticks w' = ticks Scenario.world0.
Proof.
  apply (search_retries_failed_translate Scenario2.aborting (fun n => eq_refl)
           5 Scenario.world0).
  unfold cursor_in_range. cbn. lia.
Defined.

(** ** What the search hands to the tracking *)

Lemma wait_for_roomba_choice ros fuel :
  forall w ok r w',
    wait_for_roomba ros fuel w = Returned (ok, Some r) w' ->
    exists roombas odom,
      avail_roombas ros (ticks w') = Some roombas /\
      drone_odom ros (ticks w') = Some odom /\
      target_roomba_law roombas odom = Ok r.
Proof.
  induction fuel as [|fuel IH]; intros w ok r w'; [discriminate|].
  cbn [wait_for_roomba]. intros H.
  apply mbind_Returned in H. destruct H as (failed & w1 & Hf & H).
  unfold did_task_fail, mbind, client_get_state, ret in Hf.
  injection Hf as <- <-.
  destruct (status_failed _); [discriminate|].
  apply mbind_Returned in H. destruct H as (succeeded & w2 & Hs & H).
  unfold did_task_succeed, mbind, client_get_state, ret in Hs.
  injection Hs as <- <-.
  destruct (status_succeeded _); [discriminate|].
  apply mbind_Returned in H. destruct H as (roombas & w3 & Ha & H).
  unfold self_avail_roombas in Ha. cbn [ticks next_poll log_call] in Ha.
  destruct (avail_roombas ros (ticks w)) as [l|] eqn:El; [|discriminate].
  injection Ha as <- <-.
  destruct (Z.of_nat (List.length l) >? 0)%Z.
  - apply mbind_Returned in H. destruct H as (odom & w4 & Ho & H).
    unfold self_odom in Ho. cbn [ticks next_poll log_call] in Ho.
    destruct (drone_odom ros (ticks w)) as [o|] eqn:Eo; [|discriminate].
    injection Ho as <- <-.
    apply mbind_Returned in H. destruct H as (target & w5 & Ht & H).
    unfold lift in Ht.
    destruct (target_roomba_law l o) as [t|] eqn:Et; [|discriminate].
    injection Ht as <- <-. unfold ret in H. injection H as _ <- <-.
    exists l, o. cbn [ticks next_poll log_call]. auto.
  - apply mbind_Returned in H. destruct H as (u & w4 & _ & H).
    exact (IH _ _ _ _ H).
Qed.

Lemma search_loop_choice ros fuel :
  forall w r w',
    search_loop ros fuel w = Returned r w' ->
    exists roombas odom,
      avail_roombas ros (ticks w') = Some roombas /\
      drone_odom ros (ticks w') = Some odom /\
      target_roomba_law roombas odom = Ok r.
Proof.
  induction fuel as [|fuel IH]; intros w r w'; [discriminate|].
  cbn [search_loop]. intros H.
  apply mbind_Returned in H. destruct H as (c & w1 & _ & H).
  apply mbind_Returned in H. destruct H as (p & w2 & _ & H).
  apply mbind_Returned in H. destruct H as (u & w3 & _ & H).
  apply mbind_Returned in H. destruct H as ([ok roomba] & w4 & Hw & H).
  destruct (negb ok); [exact (IH _ _ _ H)|].
  destruct roomba as [r0|].
  - unfold ret in H. injection H as <- <-.
    exact (wait_for_roomba_choice _ _ _ _ _ _ Hw).
  - apply mbind_Returned in H. destruct H as (u' & w5 & _ & H).
    exact (IH _ _ _ H).
Qed.

(** X13: the roomba that search_for_roomba returns is the choice of
    target_roomba_law on the roombas snapshot and the drone odometry current
    when it returns, and so a member of that snapshot. *)
Theorem search_returns_the_selection ros fuel w r w' :
  search_for_roomba ros fuel w = Returned r w' ->
  exists roombas odom,
    avail_roombas ros (ticks w') = Some roombas /\
    drone_odom ros (ticks w') = Some odom /\
    target_roomba_law roombas odom = Ok r /\
    In r roombas.
Proof.
  unfold search_for_roomba. intros H.
  apply mbind_Returned in H. destruct H as (c & w1 & _ & H).
  apply mbind_Returned in H. destruct H as (u & w2 & _ & H).
  apply mbind_Returned in H. destruct H as (r' & w3 & Hl & H).
  apply mbind_Returned in H. destruct H as (u' & w4 & Hset & H).
  unfold assign_search_state in Hset. injection Hset as _ <-.
  unfold ret in H. injection H as <- <-.
  destruct (search_loop_choice _ _ _ _ _ Hl) as (roombas & odom & Ha & Ho & Ht).
  exists roombas, odom. cbn [ticks set_search_state].
  repeat split; auto. exact (target_roomba_law_In _ _ _ Ht).
Qed.

Lemma search_returns_the_selection_witness :
  exists roombas odom,
    avail_roombas Scenario.following
      (ticks (final_world
                (search_for_roomba Scenario.following 2 Scenario.world0)))
      = Some roombas /\
    drone_odom Scenario.following
      (ticks (final_world
                (search_for_roomba Scenario.following 2 Scenario.world0)))
      = Some odom /\
    target_roomba_law roombas odom = Ok Scenario.roomba_east /\
    In Scenario.roomba_east roombas.
Proof.
  apply (search_returns_the_selection Scenario.following 2 Scenario.world0).
  vm_compute. reflexivity.
Defined.

(** ** find_roomba_by_id on a member *)

(** X14: a roomba of the snapshot is found by its own identifier: the lookup
    returns a roomba with that identifier (an earlier one when the identifier
    occurs twice), never None. *)
Theorem find_roomba_by_id_member roombas r :
  In r roombas ->
  exists r',
    find_roomba_by_id roombas (child_frame_id r) = Some r' /\
    child_frame_id r' = child_frame_id r.
Proof.
  intros Hr. unfold find_roomba_by_id.
  destruct (filter _ roombas) as [|x rest] eqn:E.
  - exfalso. pose proof (filter_nil_none _ _ E r Hr) as H.
    cbn in H. now rewrite String.eqb_refl in H.
  - cbn. exists x. split; [reflexivity|].
    destruct (filter_first_split _ _ _ _ E) as (before & after & _ & Fx & _).
    now apply String.eqb_eq.
Qed.

Lemma find_roomba_by_id_member_witness :
  exists r',
    find_roomba_by_id [Scenario.roomba_east; Scenario.roomba_north]
      (child_frame_id Scenario.roomba_north) = Some r' /\
    child_frame_id r' = child_frame_id Scenario.roomba_north.
Proof.
  apply (find_roomba_by_id_member
           [Scenario.roomba_east; Scenario.roomba_north] Scenario.roomba_north).
  right. left. reflexivity.
Defined.

(** ** The sweep is a cycle over the five outer waypoints *)

Lemma next_cursor_period c :
  (1 <= c < 6)%Z ->
  next_cursor (next_cursor (next_cursor (next_cursor (next_cursor c)))) = c.
Proof.
  intros H.
  assert (Hcases : (c = 1 \/ c = 2 \/ c = 3 \/ c = 4 \/ c = 5)%Z) by lia.
  destruct Hcases as [->|[->|[->| [->| ->]]]]; reflexivity.
Qed.

Lemma sweep_length n c : List.length (sweep n c) = n.
Proof. revert c. induction n; intros c; cbn; auto. Qed.

Lemma sweep_range n c :
  (1 <= c < 6)%Z -> Forall (fun x => (1 <= x < 6)%Z) (sweep n c).
Proof.
  revert c. induction n as [|n IH]; intros c Hc; cbn [sweep]; constructor; auto.
  apply IH. apply next_cursor_range. lia.
Qed.

Lemma sweep_period n : forall k c,
  (1 <= c < 6)%Z -> (k + 5 < n)%nat ->
  nth (k + 5) (sweep n c) 0%Z = nth k (sweep n c) 0%Z.
Proof.
  assert (Hshift : forall n k c, (k < n)%nat ->
            nth (S k) (sweep (S n) c) 0%Z = nth k (sweep n (next_cursor c)) 0%Z).
  { intros. reflexivity. }
  assert (Hhead : forall n c, (0 < n)%nat -> nth 0 (sweep n c) 0%Z = c).
  { intros [|m] c Hm; [lia|reflexivity]. }
  induction n as [|n IH]; intros k c Hc Hk; [lia|].
  destruct k as [|k].
  - cbn [Nat.add]. rewrite Hhead by lia.
    do 5 (rewrite Hshift by lia; destruct n as [|n]; [lia|]).
    rewrite Hhead by lia. now apply next_cursor_period.
  - change (S k + 5)%nat with (S (k + 5)). rewrite !Hshift by lia.
    apply IH; [|lia]. apply next_cursor_range. lia.
Qed.

(** X15: the sweep never goes back to the center.  With every translate
    succeeding and no roomba acquired, the translates that follow the first one
    of a search go to waypoints 1 to 5 only, whatever the cursor the search
    started from, and the sixth of them is the first again: the sweep is a
    cycle of period five over the outer waypoints. *)
Theorem search_sweep_is_a_cycle ros :
  (forall n, goal_status ros n = SUCCEEDED) ->
  forall fuel w,
    cursor_in_range w ->
    exists w' cursors,
      search_loop ros (S fuel) w = Running w' /\
      sent_goals (client_log w')
        = sent_goals (client_log w)
          ++ waypoint_goal ros (waypoint (search_state w))
             :: map (fun c => waypoint_goal ros (waypoint c)) cursors /\
      List.length cursors = fuel /\
      Forall (fun c => (1 <= c < 6)%Z) cursors /\
      forall k, (k + 5 < fuel)%nat ->
                nth (k + 5) cursors 0%Z = nth k cursors 0%Z.
Proof.
  intros Hs fuel w Hw.
  destruct (search_loop_sweep ros Hs (S fuel) w Hw) as (w' & Hrun & Hsent).
  pose proof (next_cursor_range _ Hw) as Hn.
  exists w', (sweep fuel (next_cursor (search_state w))).
  split; [exact Hrun|]. split; [exact Hsent|].
  split; [apply sweep_length|].
  split; [now apply sweep_range|].
  intros k Hk. now apply sweep_period.
Qed.

Lemma search_sweep_is_a_cycle_witness :
  exists w' cursors,
    search_loop Scenario.empty_arena 12 Scenario.world0 = Running w' /\
    sent_goals (client_log w')
      = sent_goals (client_log Scenario.world0)
        ++ waypoint_goal Scenario.empty_arena
             (waypoint (search_state Scenario.world0))
           :: map (fun c => waypoint_goal Scenario.empty_arena (waypoint c))
                cursors /\
    List.length cursors = 11%nat /\
    Forall (fun c => (1 <= c < 6)%Z) cursors /\
    forall k, (k + 5 < 11)%nat ->
              nth (k + 5) cursors 0%Z = nth k cursors 0%Z.
Proof.
  apply (search_sweep_is_a_cycle Scenario.empty_arena (fun n => eq_refl) 11
           Scenario.world0).
  unfold cursor_in_range. cbn. lia.
Defined.
